(** * lokal-js: the Lokal client and its tunnel handles (src/lokal.ts)

    A shallow embedding of the TypeScript client.  JavaScript strings are
    sequences of 8-bit code units (what a header value read through
    [Headers.get] is), numbers are binary64 values taken from the
    Standard Library's [SpecFloat], objects live in a store and are
    named by their address, and the asynchronous methods are run to
    completion in a state-and-exception monad. *)

From Stdlib Require Import ZArith Lia List Bool Ascii String.
From Stdlib Require Import Floats.SpecFloat.
From stdpp Require Import base option gmap strings.

Open Scope string_scope.

(** ** JavaScript numbers *)

Module JsNumber.

Definition prec : Z := 53.
Definition emax : Z := 1024.

Definition NaN : spec_float := S754_nan.
Definition zero : spec_float := S754_zero false.

(** 6 = 6755399441055744 * 2^-50, the minor of the minimum version. *)
Definition six : spec_float := S754_finite false 6755399441055744 (-50).

(** The double nearest to the integer [neg ? -n : n]. *)
Definition of_N (neg : bool) (n : N) : spec_float :=
  match n with
  | N0 => S754_zero neg
  | Npos p => binary_round prec emax neg p 0
  end.

(** The double nearest to [m * 10^e], ties to even. *)
Definition of_decimal (neg : bool) (m : N) (e : Z) : spec_float :=
  match m with
  | N0 => S754_zero neg
  | Npos p =>
      match e with
      | Zneg k =>
          SFdiv prec emax (S754_finite neg p 0)
                          (S754_finite false (10 ^ k)%positive 0)
      | _ => of_N neg (Npos p * 10 ^ Z.to_N e)
      end
  end.

(** [x < y], [x > y], [x >= y] and [x === y] on numbers: false as soon
    as one side is NaN. *)
Definition lt (x y : spec_float) : bool := SFltb x y.
Definition gt (x y : spec_float) : bool := SFltb y x.
Definition ge (x y : spec_float) : bool := SFleb y x.
Definition eq (x y : spec_float) : bool := SFeqb x y.

Definition is_nan (x : spec_float) : bool :=
  match x with S754_nan => true | _ => false end.

Definition is_zero (x : spec_float) : bool :=
  match x with S754_zero _ => true | _ => false end.

End JsNumber.

(** ** JavaScript strings *)

Module JsString.

Definition code (c : ascii) : N := N_of_ascii c.

(** [s.split(sep)] for a separator of one character. *)
Fixpoint split (sep : ascii) (s : string) : list string :=
  match s with
  | EmptyString => [EmptyString]
  | String c r =>
      if Ascii.eqb c sep then EmptyString :: split sep r
      else match split sep r with
           | p :: ps => String c p :: ps
           | [] => [String c EmptyString]
           end
  end.

Fixpoint all_chars (p : ascii -> bool) (s : string) : bool :=
  match s with
  | EmptyString => true
  | String c r => p c && all_chars p r
  end.

(** [s.includes(c)] for a needle of one character. *)
Fixpoint includes (c : ascii) (s : string) : bool :=
  match s with
  | EmptyString => false
  | String d r => Ascii.eqb d c || includes c r
  end.

(** [Some p] when [s] is [p] followed by [suf]. *)
Fixpoint strip_suffix (suf s : string) : option string :=
  if String.eqb s suf then Some EmptyString
  else match s with
       | EmptyString => None
       | String c r =>
           match strip_suffix suf r with
           | Some p => Some (String c p)
           | None => None
           end
       end.

(** [s.endsWith(suf)] *)
Definition endsWith (suf s : string) : bool :=
  match strip_suffix suf s with Some _ => true | None => false end.

(** [s.replace(/\.local$/, '')]: the pattern has no [m] flag, so [$]
    is the end of the input and at most the final ".local" goes. *)
Definition replace_dot_local (s : string) : string :=
  match strip_suffix ".local" s with
  | Some p => p
  | None => s
  end.

(** White space and line terminators among the 8-bit code units:
    TAB, LF, VT, FF, CR, SP and NBSP. *)
Definition is_white (c : ascii) : bool :=
  let n := code c in
  ((9 <=? n) && (n <=? 13) || (n =? 32) || (n =? 160))%N.

Fixpoint trim_start (s : string) : string :=
  match s with
  | EmptyString => EmptyString
  | String c r => if is_white c then trim_start r else s
  end.

Fixpoint trim_end (s : string) : string :=
  match s with
  | EmptyString => EmptyString
  | String c r =>
      match trim_end r with
      | EmptyString => if is_white c then EmptyString else String c EmptyString
      | r' => String c r'
      end
  end.

Definition trim (s : string) : string := trim_end (trim_start s).

(** The part before the first character satisfying [p], and the part
    after it when there is one. *)
Fixpoint break (p : ascii -> bool) (s : string) : string * option string :=
  match s with
  | EmptyString => (EmptyString, None)
  | String c r =>
      if p c then (EmptyString, Some r)
      else let '(a, b) := break p r in (String c a, b)
  end.

End JsString.

(** ** [Number(string)]: the StringNumericLiteral grammar *)

Module StringToNumber.
Import JsNumber JsString.

Definition digit_of (radix : N) (c : ascii) : option N :=
  let n := code c in
  let v := if ((48 <=? n) && (n <=? 57))%N then Some (n - 48)%N
           else if ((97 <=? n) && (n <=? 102))%N then Some (n - 87)%N
           else if ((65 <=? n) && (n <=? 70))%N then Some (n - 55)%N
           else None in
  match v with
  | Some d => if (d <? radix)%N then Some d else None
  | None => None
  end.

(** Digits read left to right on top of the value [acc]; [None] at the
    first character that is not a digit of the radix. *)
Fixpoint digits_from (radix acc : N) (s : string) : option N :=
  match s with
  | EmptyString => Some acc
  | String c r =>
      match digit_of radix c with
      | Some d => digits_from radix (acc * radix + d) r
      | None => None
      end
  end.

(** One digit at least. *)
Definition digits (radix : N) (s : string) : option N :=
  match s with
  | EmptyString => None
  | _ => digits_from radix 0 s
  end.

(** NonDecimalIntegerLiteral: 0b, 0o, 0x in either case, unsigned. *)
Definition nondecimal (s : string) : option N :=
  match s with
  | String z (String k r) =>
      if negb (Ascii.eqb z "0") then None
      else if (Ascii.eqb k "b" || Ascii.eqb k "B") then digits 2 r
      else if (Ascii.eqb k "o" || Ascii.eqb k "O") then digits 8 r
      else if (Ascii.eqb k "x" || Ascii.eqb k "X") then digits 16 r
      else None
  | _ => None
  end.

(** A leading sign, and what follows it. *)
Definition sign (s : string) : bool * string :=
  match s with
  | String c r =>
      if Ascii.eqb c "-" then (true, r)
      else if Ascii.eqb c "+" then (false, r)
      else (false, s)
  | EmptyString => (false, s)
  end.

(** SignedInteger of an ExponentPart. *)
Definition signed_integer (s : string) : option Z :=
  let '(neg, r) := sign s in
  match digits 10 r with
  | Some n => Some (if neg then - Z.of_N n else Z.of_N n)%Z
  | None => None
  end.

Definition is_e (c : ascii) : bool := Ascii.eqb c "e" || Ascii.eqb c "E".
Definition is_dot (c : ascii) : bool := Ascii.eqb c ".".

Inductive Literal :=
| LitInfinity
| LitDecimal (m : N) (e : Z).

(** Digits with an optional fraction: the digits read as one integer,
    and the number of digits after the dot. *)
Definition mantissa (s : string) : option (N * Z) :=
  match break is_dot s with
  | (ip, None) =>
      match digits 10 ip with
      | Some m => Some (m, 0%Z)
      | None => None
      end
  | (EmptyString, Some fp) =>
      match digits 10 fp with
      | Some m => Some (m, Z.of_nat (String.length fp))
      | None => None
      end
  | (ip, Some fp) =>
      match digits 10 ip with
      | Some a =>
          match digits_from 10 a fp with
          | Some m => Some (m, Z.of_nat (String.length fp))
          | None => None
          end
      | None => None
      end
  end.

(** StrUnsignedDecimalLiteral *)
Definition unsigned_decimal (s : string) : option Literal :=
  if String.eqb s "Infinity" then Some LitInfinity
  else
    let '(mant, expo) := break is_e s in
    match mantissa mant with
    | Some (m, scale) =>
        match expo with
        | None => Some (LitDecimal m (- scale))
        | Some x =>
            match signed_integer x with
            | Some e => Some (LitDecimal m (e - scale))
            | None => None
            end
        end
    | None => None
    end.

(** [Number(s)] for a string [s]: white space trimmed, the empty
    string is 0, a literal is rounded to the nearest double, anything
    else is NaN. *)
Definition Number (s : string) : spec_float :=
  match trim s with
  | EmptyString => zero
  | t =>
      match nondecimal t with
      | Some n => of_N false n
      | None =>
          let '(neg, r) := sign t in
          match unsigned_decimal r with
          | Some LitInfinity => S754_infinity neg
          | Some (LitDecimal m e) => of_decimal neg m e
          | None => NaN
          end
      end
  end.

End StringToNumber.

Import JsNumber JsString StringToNumber.

(** ** The version gate (class [Lokal]) *)

Definition ServerMinVersion : string := "0.6.0".

(** What a destructured array slot holds when it is compared: its
    number, or [undefined] past the end of the array, which converts
    to NaN. *)
Definition ToNumber (slot : option spec_float) : spec_float :=
  match slot with
  | Some x => x
  | None => NaN
  end.

(** [Lokal.isValidVersion] *)
Definition isValidVersion (version : string) : bool :=
  let parts := map Number (split "." version) in
  let mins := map Number (split "." ServerMinVersion) in
  let major := ToNumber (parts !! 0%nat) in
  let minor := ToNumber (parts !! 1%nat) in
  let patch := ToNumber (parts !! 2%nat) in
  let minMajor := ToNumber (mins !! 0%nat) in
  let minMinor := ToNumber (mins !! 1%nat) in
  let minPatch := ToNumber (mins !! 2%nat) in
  if gt major minMajor then true
  else if lt major minMajor then false
  else if gt minor minMinor then true
  else if lt minor minMinor then false
  else ge patch minPatch.

(** ** Decimal numerals

    The components of a version [a.b.c]: a run of decimal digits, with
    or without a minus sign in front, and the integer it denotes. *)

Definition is_decimal_digit (c : ascii) : bool :=
  ((48 <=? code c) && (code c <=? 57))%N.

Definition all_decimal (s : string) : bool := all_chars is_decimal_digit s.

Definition numeral (s : string) : bool :=
  negb (String.eqb s EmptyString) && all_decimal s.

Fixpoint numeral_value_from (acc : N) (s : string) : N :=
  match s with
  | EmptyString => acc
  | String c r => numeral_value_from (acc * 10 + (code c - 48)) r
  end.

Definition numeral_value (s : string) : N := numeral_value_from 0 s.

Definition component (neg : bool) (ds : string) : string :=
  if neg then String "-" ds else ds.

Definition signed (neg : bool) (n : N) : Z :=
  if neg then (- Z.of_N n)%Z else Z.of_N n.

Definition component_value (neg : bool) (ds : string) : Z :=
  signed neg (numeral_value ds).

Definition version_string (a b c : string) : string :=
  a ++ "." ++ b ++ "." ++ c.

(** ** JavaScript values *)

Set Warnings "-register-all".

Inductive JsVal :=
| JUndefined
| JNull
| JBool (b : bool)
| JNum (x : spec_float)
| JStr (s : string)
| JArr (elems : list JsVal)
| JObj (fields : list (string * JsVal)).

(** ToBoolean *)
Definition truthy (v : JsVal) : bool :=
  match v with
  | JUndefined | JNull => false
  | JBool b => b
  | JNum x => negb (is_zero x || is_nan x)
  | JStr s => negb (String.eqb s EmptyString)
  | JArr _ | JObj _ => true
  end.

(** [a || b] *)
Definition js_or (a b : JsVal) : JsVal := if truthy a then a else b.

(** [v === 0] *)
Definition is_number_zero (v : JsVal) : bool :=
  match v with
  | JNum x => eq x zero
  | _ => false
  end.

(** [v !== 'HTTP'] *)
Definition is_not_HTTP (v : JsVal) : bool :=
  match v with
  | JStr s => negb (String.eqb s "HTTP")
  | _ => true
  end.

(** What a method can raise.  An [Error] is kept with the value its
    constructor was given; its message is that value as a string. *)
Inductive Exn :=
| Error (message : JsVal)      (* [new Error(message)] *)
| TypeError (what : string)    (* raised by the runtime, or by [fetch] *)
| SyntaxError                  (* [response.json()] on a body that is not JSON *)
| Thrown (v : JsVal).          (* a value that is not an [Error] *)

Definition instanceofError (e : Exn) : bool :=
  match e with
  | Thrown _ => false
  | _ => true
  end.

(** The result of running a method: a value, an exception, or [Dangling]
    when the model is asked about an address that holds no object (no
    JavaScript run gets there: a reference always has its object). *)
Inductive Outcome (A : Type) :=
| Return (a : A)
| Throw (e : Exn)
| Dangling.

Arguments Return {A} a.
Arguments Throw {A} e.
Arguments Dangling {A}.

Fixpoint assoc (k : string) (fields : list (string * JsVal)) : JsVal :=
  match fields with
  | [] => JUndefined
  | (k', v) :: rest => if String.eqb k' k then v else assoc k rest
  end.

(** [v.k] for the property names the client reads ([success], [data],
    [message], [length], [id], [address_public], [address_mdns]): own
    properties of a parsed object, [length] of a string or an array,
    [undefined] on the other primitives, a TypeError on [undefined] and
    [null]. *)
Definition get (v : JsVal) (k : string) : Outcome JsVal :=
  match v with
  | JUndefined | JNull => Throw (TypeError "Cannot read properties of undefined or null")
  | JObj fields => Return (assoc k fields)
  | JStr s =>
      Return (if String.eqb k "length"
              then JNum (of_N false (N.of_nat (String.length s))) else JUndefined)
  | JArr elems =>
      Return (if String.eqb k "length"
              then JNum (of_N false (N.of_nat (List.length elems))) else JUndefined)
  | JBool _ | JNum _ => Return JUndefined
  end.

(** [v[0]] *)
Definition get_first (v : JsVal) : Outcome JsVal :=
  match v with
  | JUndefined | JNull => Throw (TypeError "Cannot read properties of undefined or null")
  | JArr elems => Return (match elems with e :: _ => e | [] => JUndefined end)
  | JStr s => Return (match s with String c _ => JStr (String c EmptyString)
                                 | EmptyString => JUndefined end)
  | JObj fields => Return (assoc "0" fields)
  | JBool _ | JNum _ => Return JUndefined
  end.

(** [v.includes(':')]: the string method, the array method, and a
    TypeError where there is no such method. *)
Definition includes_colon (v : JsVal) : Outcome bool :=
  match v with
  | JUndefined | JNull => Throw (TypeError "Cannot read properties of undefined or null")
  | JStr s => Return (includes ":" s)
  | JArr elems =>
      Return (existsb (fun e => match e with
                                | JStr s => String.eqb s ":"
                                | _ => false
                                end) elems)
  | JBool _ | JNum _ | JObj _ => Throw (TypeError "includes is not a function")
  end.

(** ** Objects and the world around them *)

Definition loc := positive.

(** class [Lokal] *)
Record Lokal := mkLokal {
  baseURL : string;
  basicAuth : option (string * string);
  token : option string
}.

(** class [Tunnel]: the fields of [TunnelData], the client the handle is
    bound to and the two private flags.  A field holds whatever value
    was assigned to it: the declared types are erased at run time. *)
Record Tunnel := mkTunnel {
  lokal : loc;
  id : JsVal;
  name : JsVal;
  tunnel_type : JsVal;
  local_address : JsVal;
  server_id : JsVal;
  address_tunnel : JsVal;
  address_tunnel_port : JsVal;
  address_public : JsVal;
  address_mdns : JsVal;
  inspect : JsVal;
  options : JsVal;
  ignoreDuplicateFlag : bool;
  startupBannerFlag : bool
}.

(** [this.f = v], one function per assigned field *)
Definition with_id (v : JsVal) (t : Tunnel) : Tunnel :=
  mkTunnel (lokal t) v (name t) (tunnel_type t) (local_address t) (server_id t)
    (address_tunnel t) (address_tunnel_port t) (address_public t) (address_mdns t)
    (inspect t) (options t) (ignoreDuplicateFlag t) (startupBannerFlag t).

Definition with_name (v : JsVal) (t : Tunnel) : Tunnel :=
  mkTunnel (lokal t) (id t) v (tunnel_type t) (local_address t) (server_id t)
    (address_tunnel t) (address_tunnel_port t) (address_public t) (address_mdns t)
    (inspect t) (options t) (ignoreDuplicateFlag t) (startupBannerFlag t).

Definition with_tunnel_type (v : JsVal) (t : Tunnel) : Tunnel :=
  mkTunnel (lokal t) (id t) (name t) v (local_address t) (server_id t)
    (address_tunnel t) (address_tunnel_port t) (address_public t) (address_mdns t)
    (inspect t) (options t) (ignoreDuplicateFlag t) (startupBannerFlag t).

Definition with_local_address (v : JsVal) (t : Tunnel) : Tunnel :=
  mkTunnel (lokal t) (id t) (name t) (tunnel_type t) v (server_id t)
    (address_tunnel t) (address_tunnel_port t) (address_public t) (address_mdns t)
    (inspect t) (options t) (ignoreDuplicateFlag t) (startupBannerFlag t).

Definition with_address_public (v : JsVal) (t : Tunnel) : Tunnel :=
  mkTunnel (lokal t) (id t) (name t) (tunnel_type t) (local_address t) (server_id t)
    (address_tunnel t) (address_tunnel_port t) v (address_mdns t)
    (inspect t) (options t) (ignoreDuplicateFlag t) (startupBannerFlag t).

Definition with_address_mdns (v : JsVal) (t : Tunnel) : Tunnel :=
  mkTunnel (lokal t) (id t) (name t) (tunnel_type t) (local_address t) (server_id t)
    (address_tunnel t) (address_tunnel_port t) (address_public t) v
    (inspect t) (options t) (ignoreDuplicateFlag t) (startupBannerFlag t).

Definition with_inspect (v : JsVal) (t : Tunnel) : Tunnel :=
  mkTunnel (lokal t) (id t) (name t) (tunnel_type t) (local_address t) (server_id t)
    (address_tunnel t) (address_tunnel_port t) (address_public t) (address_mdns t)
    v (options t) (ignoreDuplicateFlag t) (startupBannerFlag t).

Definition with_ignoreDuplicateFlag (b : bool) (t : Tunnel) : Tunnel :=
  mkTunnel (lokal t) (id t) (name t) (tunnel_type t) (local_address t) (server_id t)
    (address_tunnel t) (address_tunnel_port t) (address_public t) (address_mdns t)
    (inspect t) (options t) b (startupBannerFlag t).

Definition with_startupBannerFlag (b : bool) (t : Tunnel) : Tunnel :=
  mkTunnel (lokal t) (id t) (name t) (tunnel_type t) (local_address t) (server_id t)
    (address_tunnel t) (address_tunnel_port t) (address_public t) (address_mdns t)
    (inspect t) (options t) (ignoreDuplicateFlag t) b.

(** The two paths the client calls.  The second is the template
    [/api/tunnel/info/${id}], kept with the value it interpolates. *)
Inductive Endpoint :=
| TunnelStart
| TunnelInfo (id : JsVal).

Definition endpoint_path (e : Endpoint) : option string :=
  match e with
  | TunnelStart => Some "/api/tunnel/start"
  | TunnelInfo (JStr s) => Some ("/api/tunnel/info/" ++ s)
  | TunnelInfo _ => None
  end.

(** A header value: plain text, or ["Basic " + btoa(username:password)]
    kept as the pair it encodes.  Strings here are sequences of 8-bit
    characters, the code units up to U+00FF, which are exactly the
    strings [btoa] encodes; on a code unit above U+00FF [btoa] throws,
    and credentials holding one are outside this development. *)
Inductive HeaderValue :=
| HText (s : string)
| HBasic (username password : string).

(** What [fetch] is called with: the base URL and the path appended to
    it, the method, the headers, and the body.  The body, when there is
    one, is the JSON text of a tunnel handle: the handle's fields at
    that moment. *)
Record Request := mkRequest {
  rq_base : string;
  rq_endpoint : Endpoint;
  rq_method : string;
  rq_headers : list (string * HeaderValue);
  rq_body : option Tunnel
}.

(** What [fetch] resolves to: the status, the Lokal-Server-Version
    header when the response has one, and what [response.json()] gives
    ([None] when the body is not JSON). *)
Record Response := mkResponse {
  status : N;
  server_version : option string;
  json : option JsVal
}.

Definition ok (r : Response) : bool :=
  ((200 <=? status r) && (status r <=? 299))%N.

Inductive FetchOutcome :=
| Rejected (e : Exn)
| Responded (r : Response).

Inductive ConsoleLine :=
| CError (hint : string) (cause : Exn)       (* [console.error(hint, error.message)] *)
| CBanner                                    (* the coloured banner *)
| CBlank                                     (* [console.log()] *)
| CField (label tab : string) (value : JsVal). (* a label, then tabs and a value *)

Record World := mkWorld {
  clients : gmap loc Lokal;
  tunnels : gmap loc Tunnel;
  sent : list Request;
  console : list ConsoleLine
}.

(** ** Running methods *)

Definition M (A : Type) : Type := World -> Outcome A * World.

Definition ret {A} (a : A) : M A := fun w => (Return a, w).

Definition throw {A} (e : Exn) : M A := fun w => (Throw e, w).

Definition lift {A} (o : Outcome A) : M A := fun w => (o, w).

Definition bind {A B} (m : M A) (k : A -> M B) : M B :=
  fun w =>
    match m w with
    | (Return a, w') => k a w'
    | (Throw e, w') => (Throw e, w')
    | (Dangling, w') => (Dangling, w')
    end.

Notation "x <- m ;; k" := (bind m (fun x => k))
  (at level 100, m at next level, right associativity).
Notation "m ;;; k" := (bind m (fun _ => k))
  (at level 100, right associativity).

Definition get_client (c : loc) : M Lokal :=
  fun w => match clients w !! c with
           | Some l => (Return l, w)
           | None => (Dangling, w)
           end.

Definition put_client (c : loc) (l : Lokal) : M unit :=
  fun w => (Return tt, mkWorld (<[c := l]> (clients w)) (tunnels w) (sent w) (console w)).

Definition get_tunnel (h : loc) : M Tunnel :=
  fun w => match tunnels w !! h with
           | Some t => (Return t, w)
           | None => (Dangling, w)
           end.

Definition put_tunnel (h : loc) (t : Tunnel) : M unit :=
  fun w => (Return tt, mkWorld (clients w) (<[h := t]> (tunnels w)) (sent w) (console w)).

(** [this.f = v] *)
Definition assign (h : loc) (upd : Tunnel -> Tunnel) : M unit :=
  t <- get_tunnel h ;; put_tunnel h (upd t).

(** The world with one more line on the console. *)
Definition after_log (l : ConsoleLine) (w : World) : World :=
  mkWorld (clients w) (tunnels w) (sent w) (console w ++ [l]).

(** The world once the request [rq] has gone out. *)
Definition after_fetch (rq : Request) (w : World) : World :=
  mkWorld (clients w) (tunnels w) (sent w ++ [rq]) (console w).

Definition console_log (l : ConsoleLine) : M unit :=
  fun w => (Return tt, after_log l w).

(** ** class [Lokal] *)

Definition defaultBaseURL : string := "http://127.0.0.1:6174".

(** [new Lokal(baseURL)] *)
Definition new_Lokal (baseURL : string) : M loc :=
  fun w =>
    let c := fresh (dom (clients w)) in
    (Return c,
     mkWorld (<[c := mkLokal baseURL None None]> (clients w))
             (tunnels w) (sent w) (console w)).

Definition setBaseURL (this : loc) (url : string) : M loc :=
  l <- get_client this ;;
  put_client this (mkLokal url (basicAuth l) (token l)) ;;;
  ret this.

Definition setBasicAuth (this : loc) (username password : string) : M loc :=
  l <- get_client this ;;
  put_client this (mkLokal (baseURL l) (Some (username, password)) (token l)) ;;;
  ret this.

Definition setAPIToken (this : loc) (tok : string) : M loc :=
  l <- get_client this ;;
  put_client this (mkLokal (baseURL l) (basicAuth l) (Some tok)) ;;;
  ret this.

(** The headers and options [request] hands to [fetch].  The
    credentials are strings that [btoa] encodes (see [HeaderValue]), so
    the headers are always built; with a code unit above U+00FF in
    them, [request] would throw here, before the [try] block and before
    [fetch]. *)
Definition build_request (l : Lokal) (endpoint : Endpoint) (method : string)
    (body : option Tunnel) : Request :=
  let headers :=
    [("User-Agent", HText "Lokal TS - github.com/lokal-so/lokal-ts");
     ("Content-Type", HText "application/json")] in
  let headers :=
    match token l with
    | Some tok => if String.eqb tok EmptyString then headers
                  else (headers ++ [("X-Auth-Token", HText tok)])%list
    | None => headers
    end in
  let headers :=
    match basicAuth l with
    | Some (username, password) =>
        (headers ++ [("Authorization", HBasic username password)])%list
    | None => headers
    end in
  mkRequest (baseURL l) endpoint method headers body.

(** [JSON.stringify(body)] when [body] is not null. *)
Definition snapshot (body : option loc) : M (option Tunnel) :=
  match body with
  | Some h => t <- get_tunnel h ;; ret (Some t)
  | None => ret None
  end.

Definition outdated : Exn :=
  Error (JStr "Your local client might be outdated, please update").

Definition no_client_hint : string :=
  "No Lokal client running, you may need to install Lokal Client, download at https://lokal.so/download".

Section Daemon.

(** The daemon, and the network on the way to it: what [fetch] comes
    back with for a request, given the requests sent before it. *)
Variable daemon : list Request -> Request -> FetchOutcome.

Definition fetch (rq : Request) : M FetchOutcome :=
  fun w => (Return (daemon (sent w) rq), after_fetch rq w).

(** [request] from the version header on: the response and nothing
    else is looked at. *)
Definition read_response (response : Response) : Outcome JsVal :=
  match server_version response with
  | None => Throw outdated
  | Some serverVersion =>
      if String.eqb serverVersion EmptyString
         || negb (isValidVersion serverVersion)
      then Throw outdated
      else
        match json response with
        | None => Throw SyntaxError
        | Some data =>
            if negb (ok response) then
              match get data "message" with
              | Return message => Throw (Error (js_or message (JStr "An error occurred")))
              | failure => failure
              end
            else Return data
        end
  end.

(** [Lokal.request(endpoint, method, body)]; [body] is null or a
    tunnel handle. *)
Definition request (this : loc) (endpoint : Endpoint) (method : string)
    (body : option loc) : M JsVal :=
  l <- get_client this ;;
  payload <- snapshot body ;;
  outcome <- fetch (build_request l endpoint method payload) ;;
  match outcome with
  | Rejected error =>
      (if instanceofError error
       then console_log (CError no_client_hint error)
       else ret tt) ;;;
      ret JUndefined
  | Responded response => lift (read_response response)
  end.

(** [new Tunnel(client)]: the field initialisers of the class. *)
Definition blank_tunnel (client : loc) : Tunnel :=
  mkTunnel client JUndefined (JStr "") (JStr "HTTP") (JStr "")
    JUndefined JUndefined JUndefined JUndefined JUndefined
    (JBool false) (JObj []) false false.

(** [Lokal.newTunnel()] *)
Definition newTunnel (this : loc) : M loc :=
  fun w =>
    let h := fresh (dom (tunnels w)) in
    (Return h,
     mkWorld (clients w) (<[h := blank_tunnel this]> (tunnels w))
       (sent w) (console w)).

(** ** class [Tunnel] *)

Definition setLocalAddress (this : loc) (localAddress : JsVal) : M loc :=
  assign this (with_local_address localAddress) ;;;
  ret this.

Definition setTunnelType (this : loc) (tunnelType : JsVal) : M loc :=
  assign this (with_tunnel_type tunnelType) ;;;
  ret this.

Definition setInspection (this : loc) (inspect : JsVal) : M loc :=
  assign this (with_inspect inspect) ;;;
  ret this.

Definition setLANAddress (this : loc) (lanAddress : JsVal) : M loc :=
  (if truthy lanAddress then
     match lanAddress with
     | JStr s => assign this (with_address_mdns (JStr (replace_dot_local s)))
     | _ => throw (TypeError "lanAddress.replace is not a function")
     end
   else assign this (with_address_mdns (JStr ""))) ;;;
  ret this.

Definition setPublicAddress (this : loc) (publicAddress : JsVal) : M loc :=
  assign this (with_address_public (js_or publicAddress (JStr ""))) ;;;
  ret this.

Definition setName (this : loc) (name : JsVal) : M loc :=
  assign this (with_name (js_or name (JStr ""))) ;;;
  ret this.

Definition ignoreDuplicate (this : loc) : M loc :=
  assign this (with_ignoreDuplicateFlag true) ;;;
  ret this.

Definition showStartupBanner (this : loc) : M loc :=
  assign this (with_startupBannerFlag true) ;;;
  ret this.

Definition tab : string := String (ascii_of_nat 9) EmptyString.

(** [Tunnel.showBanner()].  The colours of cli-color, one of them
    drawn at random, are left out of the lines. *)
Definition showBanner (this : loc) : M unit :=
  t <- get_tunnel this ;;
  console_log CBanner ;;;
  console_log CBlank ;;;
  console_log (CField "Minimum Lokal Client" tab (JStr ServerMinVersion)) ;;;
  (if truthy (address_public t)
   then console_log (CField "Public Address" (tab ++ tab ++ "https://") (address_public t))
   else ret tt) ;;;
  (if truthy (address_mdns t)
   then console_log (CField "LAN Address" (tab ++ tab ++ "https://") (address_mdns t))
   else ret tt) ;;;
  console_log CBlank.

(** [!response.success || response.data.length === 0] *)
Definition no_result (response : JsVal) : M bool :=
  success <- lift (get response "success") ;;
  if negb (truthy success) then ret true
  else
    data <- lift (get response "data") ;;
    len <- lift (get data "length") ;;
    ret (is_number_zero len).

Definition create (this : loc) : M loc :=
  t <- get_tunnel this ;;
  if negb (truthy (address_mdns t)) && negb (truthy (address_public t)) then
    throw (Error (JStr "Please enable either LAN address or random/custom public URL"))
  else
    response <- request (lokal t) TunnelStart "POST" (Some this) ;;
    failed <- no_result response ;;
    if failed then
      message <- lift (get response "message") ;;
      throw (Error (js_or message (JStr "Tunnel creation failing")))
    else
      data <- lift (get response "data") ;;
      tunnel <- lift (get_first data) ;;
      v <- lift (get tunnel "address_public") ;;
      assign this (with_address_public v) ;;;
      v <- lift (get tunnel "address_mdns") ;;
      assign this (with_address_mdns v) ;;;
      v <- lift (get tunnel "id") ;;
      assign this (with_id v) ;;;
      t' <- get_tunnel this ;;
      (if startupBannerFlag t' then showBanner this else ret tt) ;;;
      ret this.

Definition getLANAddress (this : loc) : M JsVal :=
  t <- get_tunnel this ;;
  if negb (truthy (address_mdns t)) then
    throw (Error (JStr "LAN address is not being set"))
  else
    match address_mdns t with
    | JStr s => ret (JStr (if endsWith ".local" s then s else s ++ ".local"))
    | _ => throw (TypeError "this.address_mdns.endsWith is not a function")
    end.

Definition updatePublicURLPort (this : loc) : M unit :=
  t <- get_tunnel this ;;
  if negb (truthy (id t)) then
    throw (Error (JStr "Tunnel ID is not set"))
  else
    response <- request (lokal t) (TunnelInfo (id t)) "GET" None ;;
    failed <- no_result response ;;
    if failed then
      throw (Error (JStr "Could not get tunnel info"))
    else
      data <- lift (get response "data") ;;
      tunnel <- lift (get_first data) ;;
      v <- lift (get tunnel "address_public") ;;
      has_port <- lift (includes_colon v) ;;
      if negb has_port then
        throw (Error (JStr "Could not get assigned port"))
      else
        v <- lift (get tunnel "address_public") ;;
        assign this (with_address_public v).

Definition not_yet_assigned : Exn :=
  Error (JStr "Tunnel is using a random port, but it has not been assigned yet. Please try again later").

Definition getPublicAddress (this : loc) : M JsVal :=
  t <- get_tunnel this ;;
  if negb (truthy (address_public t)) then
    throw (Error (JStr "Public address is not requested by client"))
  else
    pending <- (if is_not_HTTP (tunnel_type t)
                then has_port <- lift (includes_colon (address_public t)) ;;
                     ret (negb has_port)
                else ret false) ;;
    if pending then
      updatePublicURLPort this ;;;
      throw not_yet_assigned
    else
      t' <- get_tunnel this ;;
      ret (address_public t').

End Daemon.

(** ** The fluent setters as calls *)

Inductive Field :=
| FLocalAddress | FTunnelType | FInspect | FAddressMdns | FAddressPublic
| FName | FIgnoreDuplicate | FStartupBanner.

Inductive Setter :=
| SetLocalAddress (v : JsVal)
| SetTunnelType (v : JsVal)
| SetInspection (v : JsVal)
| SetLANAddress (v : JsVal)
| SetPublicAddress (v : JsVal)
| SetName (v : JsVal)
| IgnoreDuplicate
| ShowStartupBanner.

Definition call (s : Setter) (this : loc) : M loc :=
  match s with
  | SetLocalAddress v => setLocalAddress this v
  | SetTunnelType v => setTunnelType this v
  | SetInspection v => setInspection this v
  | SetLANAddress v => setLANAddress this v
  | SetPublicAddress v => setPublicAddress this v
  | SetName v => setName this v
  | IgnoreDuplicate => ignoreDuplicate this
  | ShowStartupBanner => showStartupBanner this
  end.

(** The field or flag a setter is for. *)
Definition target (s : Setter) : Field :=
  match s with
  | SetLocalAddress _ => FLocalAddress
  | SetTunnelType _ => FTunnelType
  | SetInspection _ => FInspect
  | SetLANAddress _ => FAddressMdns
  | SetPublicAddress _ => FAddressPublic
  | SetName _ => FName
  | IgnoreDuplicate => FIgnoreDuplicate
  | ShowStartupBanner => FStartupBanner
  end.

(** [setLANAddress] takes a string: it calls [replace] on any truthy
    argument.  The other setters take what they are given. *)
Definition accepted (s : Setter) : bool :=
  match s with
  | SetLANAddress v =>
      negb (truthy v) || match v with JStr _ => true | _ => false end
  | _ => true
  end.

(** Every field of [t'] is the one of [t], the field [f] apart. *)
Definition same_except (f : Field) (t t' : Tunnel) : Prop :=
  lokal t' = lokal t
  /\ id t' = id t
  /\ server_id t' = server_id t
  /\ address_tunnel t' = address_tunnel t
  /\ address_tunnel_port t' = address_tunnel_port t
  /\ options t' = options t
  /\ (f = FLocalAddress \/ local_address t' = local_address t)
  /\ (f = FTunnelType \/ tunnel_type t' = tunnel_type t)
  /\ (f = FInspect \/ inspect t' = inspect t)
  /\ (f = FAddressMdns \/ address_mdns t' = address_mdns t)
  /\ (f = FAddressPublic \/ address_public t' = address_public t)
  /\ (f = FName \/ name t' = name t)
  /\ (f = FIgnoreDuplicate \/ ignoreDuplicateFlag t' = ignoreDuplicateFlag t)
  /\ (f = FStartupBanner \/ startupBannerFlag t' = startupBannerFlag t).

(** The assignment an accepted call makes. *)
Definition update_of (s : Setter) : Tunnel -> Tunnel :=
  match s with
  | SetLocalAddress v => with_local_address v
  | SetTunnelType v => with_tunnel_type v
  | SetInspection v => with_inspect v
  | SetLANAddress v =>
      match v with
      | JStr s => with_address_mdns (JStr (replace_dot_local s))
      | _ => with_address_mdns (JStr "")
      end
  | SetPublicAddress v => with_address_public (js_or v (JStr ""))
  | SetName v => with_name (js_or v (JStr ""))
  | IgnoreDuplicate => with_ignoreDuplicateFlag true
  | ShowStartupBanner => with_startupBannerFlag true
  end.

(** ** Worlds and daemons to run the client in *)

(** One client at its default address, and one handle holding [t]. *)
Definition world_with (t : Tunnel) : World :=
  mkWorld {[ 1%positive := mkLokal defaultBaseURL None None ]}
          {[ 1%positive := t ]} [] [].

(** The handle is fresh from [newTunnel]. *)
Definition fresh_world : World := world_with (blank_tunnel 1%positive).

(** No daemon is listening. *)
Definition unreachable : list Request -> Request -> FetchOutcome :=
  fun _ _ => Rejected (TypeError "fetch failed").

(** A daemon that answers every request with status 200 and [body], under
    the version [version]. *)
Definition answering (version : option string) (body : JsVal)
  : list Request -> Request -> FetchOutcome :=
  fun _ _ => Responded (mkResponse 200 version (Some body)).

(** A handle asked for the public address ["my-app"]. *)
Definition configured_tunnel : Tunnel :=
  with_address_public (JStr "my-app") (blank_tunnel 1%positive).

(** A TCP handle, its public address still without a port. *)
Definition pending_tunnel (id : JsVal) : Tunnel :=
  with_id id
    (with_address_public (JStr "1.2.3.4")
       (with_tunnel_type (JStr "TCP") (blank_tunnel 1%positive))).

Definition info_body (address : string) : JsVal :=
  JObj [("success", JBool true);
        ("data", JArr [JObj [("id", JStr "abc");
                             ("address_public", JStr address)]])].

Definition created_body : JsVal :=
  JObj [("success", JBool true);
        ("data", JArr [JObj [("id", JStr "abc");
                             ("address_public", JStr "my-app.example.com");
                             ("address_mdns", JStr "my-app")]])].

(** The program of the README: a client, a handle configured for the
    public address ["my-app"] with the banner on, [create()], then
    [getPublicAddress()]. *)
Definition readme_session (daemon : list Request -> Request -> FetchOutcome)
  : M JsVal :=
  lokal <- new_Lokal defaultBaseURL ;;
  tunnel <- newTunnel lokal ;;
  tunnel <- setLocalAddress tunnel (JStr "localhost:3000") ;;
  tunnel <- setTunnelType tunnel (JStr "HTTP") ;;
  tunnel <- setPublicAddress tunnel (JStr "my-app") ;;
  tunnel <- showStartupBanner tunnel ;;
  tunnel <- create daemon tunnel ;;
  getPublicAddress daemon tunnel.

(** The same with a LAN address, as in the package's second README. *)
Definition readme_lan_session (daemon : list Request -> Request -> FetchOutcome)
  : M JsVal :=
  lokal <- new_Lokal defaultBaseURL ;;
  tunnel <- newTunnel lokal ;;
  tunnel <- setLocalAddress tunnel (JStr "localhost:3000") ;;
  tunnel <- setTunnelType tunnel (JStr "HTTP") ;;
  tunnel <- setLANAddress tunnel (JStr "my-app.local") ;;
  tunnel <- showStartupBanner tunnel ;;
  tunnel <- ignoreDuplicate tunnel ;;
  tunnel <- create daemon tunnel ;;
  getLANAddress tunnel.

Definition empty_world : World := mkWorld ∅ ∅ [] [].

(** * Properties *)

(** ** Rounding an integer to binary64 *)

Section Rounding.

Local Open Scope Z_scope.

Lemma fexp_eq x : fexp prec emax x = Z.max (x - 53) (-1074).
Proof. reflexivity. Qed.

Lemma digits2_bounds p :
  2 ^ (Zpos (digits2_pos p) - 1) <= Zpos p < 2 ^ Zpos (digits2_pos p).
Proof.
  induction p as [p IH | p IH |]; simpl digits2_pos.
  - rewrite Pos2Z.inj_succ, Z.pow_succ_r by lia.
    replace (Z.succ (Zpos (digits2_pos p)) - 1)
      with (Z.succ (Zpos (digits2_pos p) - 1)) by lia.
    rewrite Z.pow_succ_r by lia. lia.
  - rewrite Pos2Z.inj_succ, Z.pow_succ_r by lia.
    replace (Z.succ (Zpos (digits2_pos p)) - 1)
      with (Z.succ (Zpos (digits2_pos p) - 1)) by lia.
    rewrite Z.pow_succ_r by lia. lia.
  - simpl. lia.
Qed.

Lemma Zdigits2_bounds m :
  0 < m -> 2 ^ (Zdigits2 m - 1) <= m < 2 ^ Zdigits2 m.
Proof.
  destruct m as [| p | p]; try lia. intros _. apply digits2_bounds.
Qed.

Lemma digits2_iter_xO p k :
  Zpos (digits2_pos (Pos.iter xO p k)) = Zpos (digits2_pos p) + Zpos k.
Proof.
  induction k as [| k IH] using Pos.peano_ind.
  - simpl. lia.
  - rewrite Pos.iter_succ. simpl digits2_pos. lia.
Qed.

Lemma shr_1_m r : 0 <= shr_m r -> shr_m (shr_1 r) = shr_m r / 2.
Proof.
  destruct r as [m rb sb]. simpl. intros Hm.
  destruct m as [| [q | q |] | q]; try lia;
    rewrite <- Z.div2_div; reflexivity.
Qed.

Lemma pow2_xO k : 2 ^ Zpos k~0 = 2 ^ Zpos k * 2 ^ Zpos k.
Proof. rewrite Pos2Z.inj_xO, <- Z.pow_add_r by lia. f_equal; lia. Qed.

Lemma pow2_xI k : 2 ^ Zpos k~1 = 2 * (2 ^ Zpos k * 2 ^ Zpos k).
Proof.
  rewrite Pos2Z.inj_xI, <- Z.pow_add_r, <- Z.pow_succ_r by lia. f_equal; lia.
Qed.

Lemma iter_shr_1_m k : forall r,
  0 <= shr_m r ->
  shr_m (SpecFloat.iter_pos shr_1 k r) = shr_m r / 2 ^ Zpos k.
Proof.
  induction k as [k IH | k IH |]; intros r Hr; simpl SpecFloat.iter_pos.
  - assert (H1 : 0 <= shr_m (shr_1 r)).
    { rewrite shr_1_m by assumption. apply Z.div_pos; lia. }
    assert (H2 : 0 <= shr_m (SpecFloat.iter_pos shr_1 k (shr_1 r))).
    { rewrite IH by assumption. apply Z.div_pos; lia. }
    rewrite IH, IH, shr_1_m by assumption.
    rewrite !Z.div_div by lia. rewrite pow2_xI. f_equal; lia.
  - assert (H2 : 0 <= shr_m (SpecFloat.iter_pos shr_1 k r)).
    { rewrite IH by assumption. apply Z.div_pos; lia. }
    rewrite IH, IH by assumption.
    rewrite !Z.div_div by lia. rewrite pow2_xO. f_equal; lia.
  - rewrite shr_1_m by assumption. reflexivity.
Qed.

(** Shifting a positive mantissa down to the format's width, at an
    exponent in range, keeps it positive and does not lower the
    exponent. *)
Lemma shr_fexp_pos m e :
  0 < m -> -1074 <= e ->
  0 < shr_m (fst (shr_fexp prec emax m e loc_Exact))
  /\ e <= snd (shr_fexp prec emax m e loc_Exact).
Proof.
  intros Hm He. unfold shr_fexp. rewrite fexp_eq.
  pose proof (Zdigits2_bounds m Hm) as [Hlo _].
  simpl shr_record_of_loc. unfold shr.
  destruct (Z.max (Zdigits2 m + e - 53) (-1074) - e) as [| n | n] eqn:En;
    simpl; try (split; lia).
  rewrite iter_shr_1_m by (simpl; lia). simpl shr_m.
  assert (Hn : Zpos n = Zdigits2 m - 53) by lia.
  split; [| lia].
  apply Z.lt_le_trans with (2 ^ 52); [reflexivity |].
  apply Z.div_le_lower_bound; [apply Z.pow_pos_nonneg; lia |].
  rewrite Hn, <- Z.pow_add_r by lia.
  replace (Zdigits2 m - 53 + 52) with (Zdigits2 m - 1) by lia.
  exact Hlo.
Qed.

Lemma round_nearest_even_ge m l : m <= round_nearest_even m l.
Proof.
  destruct l as [| []]; simpl; try lia. destruct (Z.even m); lia.
Qed.

(** The sign survives, the result is neither zero nor NaN, and the
    exponent does not go below the one given. *)
Lemma binary_round_aux_shape s m e :
  0 < m -> -1074 <= e ->
  binary_round_aux prec emax s m e loc_Exact = S754_infinity s
  \/ exists m' e', binary_round_aux prec emax s m e loc_Exact = S754_finite s m' e'
                    /\ e <= e'.
Proof.
  intros Hm He. unfold binary_round_aux.
  destruct (shr_fexp_pos m e Hm He) as [H1 H2].
  destruct (shr_fexp prec emax m e loc_Exact) as [r1 e1]. simpl in H1, H2.
  pose proof (round_nearest_even_ge (shr_m r1) (loc_of_shr_record r1)) as Hr.
  set (m2 := round_nearest_even (shr_m r1) (loc_of_shr_record r1)) in *.
  destruct (shr_fexp_pos m2 e1) as [H3 H4]; [lia | lia |].
  destruct (shr_fexp prec emax m2 e1 loc_Exact) as [r2 e2]. simpl in H3, H4.
  destruct (shr_m r2) as [| q | q]; try lia.
  destruct (e2 <=? emax - prec); [right | left; reflexivity].
  exists q, e2. split; [reflexivity | lia].
Qed.

Lemma binary_round_shape s p :
  binary_round prec emax s p 0 = S754_infinity s
  \/ exists m e, binary_round prec emax s p 0 = S754_finite s m e
                  /\ Z.min 0 (Zpos (digits2_pos p) - 53) <= e.
Proof.
  unfold binary_round, shl_align. rewrite fexp_eq.
  destruct (Z.max (Zpos (digits2_pos p) + 0 - 53) (-1074) - 0) as [| n | n] eqn:En.
  - destruct (binary_round_aux_shape s (Zpos p) 0) as [H | (m & e & H & Hle)];
      [lia | lia | left; exact H | right].
    exists m, e. split; [exact H | lia].
  - destruct (binary_round_aux_shape s (Zpos p) 0) as [H | (m & e & H & Hle)];
      [lia | lia | left; exact H | right].
    exists m, e. split; [exact H | lia].
  - destruct (binary_round_aux_shape s (Zpos (Pos.iter xO p n))
                (Z.max (Zpos (digits2_pos p) + 0 - 53) (-1074)))
      as [H | (m & e & H & Hle)]; [lia | lia | left; exact H | right].
    exists m, e. split; [exact H | lia].
Qed.

End Rounding.

(** ** Integers against the constants of the minimum version *)

Section IntegerComparisons.

Local Open Scope Z_scope.

Lemma of_N_vs_zero neg n :
  SFcompare (of_N neg n) zero = Some (signed neg n ?= 0)
  /\ SFcompare zero (of_N neg n) = Some (0 ?= signed neg n).
Proof.
  destruct n as [| p]; [destruct neg; split; reflexivity |].
  unfold of_N.
  destruct (binary_round_shape neg p) as [H | (m & e & H & _)]; rewrite H;
    destruct neg; split; reflexivity.
Qed.

Lemma of_N_vs_six_big p :
  8 <= Zpos p ->
  SFcompare (of_N false (Npos p)) six = Some Gt
  /\ SFcompare six (of_N false (Npos p)) = Some Lt.
Proof.
  intros Hp. unfold of_N.
  assert (Hd : 4 <= Zpos (digits2_pos p)).
  { pose proof (digits2_bounds p) as [_ Hhi].
    destruct (Z_lt_le_dec (Zpos (digits2_pos p)) 4) as [Hlt | ]; [| assumption].
    exfalso.
    assert (Hpow : 2 ^ Zpos (digits2_pos p) <= 2 ^ 3)
      by (apply Z.pow_le_mono_r; lia).
    assert (H8 : 2 ^ 3 = 8) by reflexivity. lia. }
  destruct (binary_round_shape false p) as [H | (m & e & H & He)]; rewrite H.
  - split; reflexivity.
  - assert (He' : -50 < e) by lia.
    unfold six, SFcompare.
    rewrite (proj2 (Z.compare_gt_iff e (-50))) by lia.
    rewrite (proj2 (Z.compare_lt_iff (-50) e)) by lia.
    split; reflexivity.
Qed.

Lemma of_N_vs_six neg n :
  SFcompare (of_N neg n) six = Some (signed neg n ?= 6)
  /\ SFcompare six (of_N neg n) = Some (6 ?= signed neg n).
Proof.
  destruct n as [| p]; [destruct neg; split; reflexivity |].
  destruct neg.
  - unfold of_N.
    destruct (binary_round_shape true p) as [H | (m & e & H & _)]; rewrite H;
      split; reflexivity.
  - destruct (Z_lt_le_dec (Zpos p) 8) as [Hlt | Hge].
    + destruct p as [[[q | q |] | [q | q |] |] | [[q | q |] | [q | q |] |] |];
        try (exfalso; lia); split; reflexivity.
    + destruct (of_N_vs_six_big p Hge) as [H1 H2]. rewrite H1, H2.
      unfold signed. simpl Z.of_N.
      rewrite (proj2 (Z.compare_gt_iff (Zpos p) 6)) by lia.
      rewrite (proj2 (Z.compare_lt_iff 6 (Zpos p))) by lia.
      split; reflexivity.
Qed.

End IntegerComparisons.

(** ** [Number] on decimal numerals *)

Section Numerals.

Lemma decimal_digit_cases c :
  is_decimal_digit c = true ->
  In c ["0"; "1"; "2"; "3"; "4"; "5"; "6"; "7"; "8"; "9"]%char.
Proof.
  intros H.
  destruct c as [[] [] [] [] [] [] [] []];
    first [ discriminate H | simpl; tauto ].
Qed.

Ltac digit_cases c H :=
  apply decimal_digit_cases in H; simpl in H;
  repeat (destruct H as [H | H]; [subst c | ]); try contradiction.

Lemma digit_of_decimal c :
  is_decimal_digit c = true -> digit_of 10 c = Some (code c - 48)%N.
Proof. intros H. digit_cases c H; reflexivity. Qed.

Lemma digit_not_special c :
  is_decimal_digit c = true ->
  is_white c = false /\ is_e c = false /\ is_dot c = false
  /\ Ascii.eqb c "-" = false /\ Ascii.eqb c "+" = false
  /\ Ascii.eqb c "I" = false
  /\ (Ascii.eqb c "b" || Ascii.eqb c "B" || Ascii.eqb c "o" || Ascii.eqb c "O"
      || Ascii.eqb c "x" || Ascii.eqb c "X") = false.
Proof. intros H. digit_cases c H; repeat split; reflexivity. Qed.

Lemma all_chars_impl (p q : ascii -> bool) s :
  (forall c, p c = true -> q c = true) ->
  all_chars p s = true -> all_chars q s = true.
Proof.
  intros Hpq. induction s as [| c r IH]; simpl; [reflexivity |].
  intros [Hc Hr]%andb_prop. rewrite (Hpq c Hc), (IH Hr). reflexivity.
Qed.

Lemma trim_start_id c r : is_white c = false -> trim_start (String c r) = String c r.
Proof. intros H. simpl. rewrite H. reflexivity. Qed.

Lemma trim_end_id s :
  all_chars (fun c => negb (is_white c)) s = true -> trim_end s = s.
Proof.
  induction s as [| c r IH]; simpl; [reflexivity |].
  intros [Hc Hr]%andb_prop. rewrite (IH Hr).
  apply negb_true_iff in Hc. rewrite Hc. destruct r; reflexivity.
Qed.

Lemma trim_id s :
  all_chars (fun c => negb (is_white c)) s = true -> trim s = s.
Proof.
  intros H. unfold trim. destruct s as [| c r]; [reflexivity |].
  pose proof H as H'. simpl in H'. apply andb_prop in H' as [Hc _].
  apply negb_true_iff in Hc. rewrite trim_start_id by assumption.
  apply trim_end_id, H.
Qed.

Lemma break_none p s :
  all_chars (fun c => negb (p c)) s = true -> break p s = (s, None).
Proof.
  induction s as [| c r IH]; simpl; [reflexivity |].
  intros [Hc Hr]%andb_prop. apply negb_true_iff in Hc.
  rewrite Hc, (IH Hr). reflexivity.
Qed.

Lemma split_single sep s :
  all_chars (fun c => negb (Ascii.eqb c sep)) s = true -> split sep s = [s].
Proof.
  induction s as [| c r IH]; simpl; [reflexivity |].
  intros [Hc Hr]%andb_prop. apply negb_true_iff in Hc.
  rewrite Hc, (IH Hr). reflexivity.
Qed.

Lemma split_app sep s r :
  all_chars (fun c => negb (Ascii.eqb c sep)) s = true ->
  split sep (s ++ String sep r) = s :: split sep r.
Proof.
  induction s as [| c s' IH]; simpl.
  - intros _. rewrite Ascii.eqb_refl. reflexivity.
  - intros [Hc Hr]%andb_prop. apply negb_true_iff in Hc.
    rewrite Hc, (IH Hr). reflexivity.
Qed.

Lemma all_decimal_cons c r :
  all_decimal (String c r) = is_decimal_digit c && all_decimal r.
Proof. reflexivity. Qed.

Lemma digits_from_numeral s : forall acc,
  all_decimal s = true ->
  digits_from 10 acc s = Some (numeral_value_from acc s).
Proof.
  induction s as [| c r IH]; intros acc; [reflexivity |].
  rewrite all_decimal_cons. simpl.
  intros [Hc Hr]%andb_prop.
  rewrite (digit_of_decimal c Hc). apply IH, Hr.
Qed.

Lemma numeral_inv s :
  numeral s = true ->
  exists c r, s = String c r /\ is_decimal_digit c = true /\ all_decimal s = true.
Proof.
  unfold numeral. destruct s as [| c r]; [discriminate |].
  rewrite all_decimal_cons. simpl. intros H. exists c, r. split; [reflexivity |].
  apply andb_prop in H as [Hc Hr]. rewrite Hc, Hr. split; reflexivity.
Qed.

Lemma unsigned_decimal_numeral s :
  numeral s = true ->
  unsigned_decimal s = Some (LitDecimal (numeral_value s) 0).
Proof.
  intros H. destruct (numeral_inv s H) as (c & r & -> & Hc & Hall).
  unfold unsigned_decimal.
  destruct (digit_not_special c Hc) as (_ & _ & _ & _ & _ & HI & _).
  replace (String.eqb (String c r) "Infinity") with false
    by (simpl; rewrite HI; reflexivity).
  rewrite break_none.
  2:{ apply (all_chars_impl is_decimal_digit); [| exact Hall].
      intros d Hd. destruct (digit_not_special d Hd) as (_ & -> & _). reflexivity. }
  unfold mantissa. rewrite break_none.
  2:{ apply (all_chars_impl is_decimal_digit); [| exact Hall].
      intros d Hd. destruct (digit_not_special d Hd) as (_ & _ & -> & _). reflexivity. }
  unfold digits. rewrite (digits_from_numeral _ 0%N Hall). reflexivity.
Qed.

Lemma of_decimal_integer neg n : of_decimal neg n 0 = of_N neg n.
Proof.
  destruct n as [| p]; [reflexivity |].
  unfold of_decimal. change (10 ^ Z.to_N 0)%N with 1%N.
  rewrite N.mul_1_r. reflexivity.
Qed.

Lemma nondecimal_numeral s : numeral s = true -> nondecimal s = None.
Proof.
  intros H. destruct (numeral_inv s H) as (c & r & -> & Hc & Hall).
  destruct r as [| k r']; [reflexivity |].
  rewrite !all_decimal_cons in Hall. apply andb_prop in Hall as [_ Hall].
  apply andb_prop in Hall as [Hk _].
  destruct (digit_not_special k Hk) as (_ & _ & _ & _ & _ & _ & Hk').
  apply orb_false_elim in Hk' as [Hk' HX].
  apply orb_false_elim in Hk' as [Hk' Hx].
  apply orb_false_elim in Hk' as [Hk' HO].
  apply orb_false_elim in Hk' as [Hk' Ho].
  apply orb_false_elim in Hk' as [Hb HB].
  unfold nondecimal. rewrite Hb, HB, Ho, HO, Hx, HX.
  destruct (negb (Ascii.eqb c "0")); reflexivity.
Qed.

Lemma numeral_not_white s :
  numeral s = true -> all_chars (fun c => negb (is_white c)) s = true.
Proof.
  intros H. destruct (numeral_inv s H) as (c & r & -> & _ & Hall).
  apply (all_chars_impl is_decimal_digit); [| exact Hall].
  intros d Hd. destruct (digit_not_special d Hd) as (-> & _). reflexivity.
Qed.

Lemma numeral_no_dot s :
  numeral s = true -> all_chars (fun c => negb (Ascii.eqb c ".")) s = true.
Proof.
  intros H. destruct (numeral_inv s H) as (c & r & -> & _ & Hall).
  apply (all_chars_impl is_decimal_digit); [| exact Hall].
  intros d Hd. destruct (digit_not_special d Hd) as (_ & _ & Hdot & _).
  unfold is_dot in Hdot. rewrite Hdot. reflexivity.
Qed.

(** A numeral, signed or not, converts to the double nearest to the
    integer it denotes. *)
Lemma Number_component neg ds :
  numeral ds = true ->
  Number (component neg ds) = of_N neg (numeral_value ds).
Proof.
  intros H. unfold Number.
  pose proof (numeral_not_white ds H) as Hw.
  pose proof (unsigned_decimal_numeral ds H) as Hu.
  pose proof (nondecimal_numeral ds H) as Hn.
  destruct (numeral_inv ds H) as (c & r & -> & Hc & _).
  destruct (digit_not_special c Hc) as (_ & _ & _ & Hminus & Hplus & _).
  destruct neg; unfold component.
  - rewrite trim_id by (simpl; simpl in Hw; rewrite Hw; reflexivity).
    change (nondecimal (String "-" (String c r))) with (@None N).
    change (sign (String "-" (String c r))) with (true, String c r).
    lazy beta iota zeta. rewrite Hu. apply of_decimal_integer.
  - rewrite trim_id by exact Hw. rewrite Hn.
    replace (sign (String c r)) with (false, String c r)
      by (simpl; rewrite Hminus, Hplus; reflexivity).
    lazy beta iota zeta. rewrite Hu. apply of_decimal_integer.
Qed.

Lemma split_version na nb nc a b c :
  numeral a = true -> numeral b = true -> numeral c = true ->
  split "." (version_string (component na a) (component nb b) (component nc c))
  = [component na a; component nb b; component nc c].
Proof.
  intros Ha Hb Hc. unfold version_string.
  assert (Hdot : forall neg s, numeral s = true ->
            all_chars (fun c => negb (Ascii.eqb c ".")) (component neg s) = true).
  { intros neg s Hs. destruct neg; simpl; [| apply numeral_no_dot, Hs].
    apply (numeral_no_dot s Hs). }
  change ("." ++ component nb b ++ "." ++ component nc c)
    with (String "." (component nb b ++ String "." (component nc c))).
  rewrite split_app by (apply Hdot, Ha).
  rewrite split_app by (apply Hdot, Hb).
  rewrite split_single by (apply Hdot, Hc). reflexivity.
Qed.

End Numerals.

(** ** The version gate on version triples *)

Section VersionGate.

Local Open Scope Z_scope.

Lemma isValidVersion_unfold v :
  isValidVersion v =
    let parts := map Number (split "." v) in
    let major := ToNumber (parts !! 0%nat) in
    let minor := ToNumber (parts !! 1%nat) in
    let patch := ToNumber (parts !! 2%nat) in
    if gt major zero then true
    else if lt major zero then false
    else if gt minor six then true
    else if lt minor six then false
    else ge patch zero.
Proof. reflexivity. Qed.

Lemma gt_zero neg n : gt (of_N neg n) zero = (0 <? signed neg n).
Proof.
  unfold gt, SFltb. rewrite (proj2 (of_N_vs_zero neg n)). reflexivity.
Qed.

Lemma lt_zero neg n : lt (of_N neg n) zero = (signed neg n <? 0).
Proof.
  unfold lt, SFltb. rewrite (proj1 (of_N_vs_zero neg n)). reflexivity.
Qed.

Lemma ge_zero neg n : ge (of_N neg n) zero = (0 <=? signed neg n).
Proof.
  unfold ge, SFleb, Z.leb. rewrite (proj2 (of_N_vs_zero neg n)).
  destruct (0 ?= signed neg n); reflexivity.
Qed.

Lemma gt_six neg n : gt (of_N neg n) six = (6 <? signed neg n).
Proof.
  unfold gt, SFltb. rewrite (proj2 (of_N_vs_six neg n)). reflexivity.
Qed.

Lemma lt_six neg n : lt (of_N neg n) six = (signed neg n <? 6).
Proof.
  unfold lt, SFltb. rewrite (proj1 (of_N_vs_six neg n)). reflexivity.
Qed.

Lemma isValidVersion_components na nb nc a b c :
  numeral a = true -> numeral b = true -> numeral c = true ->
  isValidVersion
    (version_string (component na a) (component nb b) (component nc c))
  = if 0 <? component_value na a then true
    else if component_value na a <? 0 then false
    else if 6 <? component_value nb b then true
    else if component_value nb b <? 6 then false
    else 0 <=? component_value nc c.
Proof.
  intros Ha Hb Hc. rewrite isValidVersion_unfold.
  rewrite split_version by assumption.
  cbn [map lookup list_lookup ToNumber].
  rewrite !Number_component by assumption.
  cbv zeta. rewrite gt_zero, lt_zero, gt_six, lt_six, ge_zero. reflexivity.
Qed.

(** C1.  For a version [a.b.c] of decimal numerals (each with or
    without a minus sign) the check against the minimum 0.6.0 accepts
    exactly when [a > 0], or [a = 0] and [b > 6], or [a = 0], [b = 6]
    and [c >= 0].  In particular the minimum itself is accepted, a
    patch at or above the minimum's is accepted at equal major and
    minor, a greater minor is accepted at equal major whatever the
    patch, and a lesser major is rejected whatever the minor and
    patch. *)
Theorem isValidVersion_triple (na nb nc : bool) (a b c : string) :
  numeral a = true -> numeral b = true -> numeral c = true ->
  let A := component_value na a in
  let B := component_value nb b in
  let C := component_value nc c in
  let v := version_string (component na a) (component nb b) (component nc c) in
  (isValidVersion v = true
     <-> (0 < A \/ (A = 0 /\ 6 < B) \/ (A = 0 /\ B = 6 /\ 0 <= C)))
  /\ isValidVersion ServerMinVersion = true
  /\ (A = 0 -> B = 6 -> 0 <= C -> isValidVersion v = true)
  /\ (A = 0 -> 6 < B -> isValidVersion v = true)
  /\ (A < 0 -> isValidVersion v = false).
Proof.
  intros Ha Hb Hc A B C v.
  assert (Hv : isValidVersion v
               = if 0 <? A then true else if A <? 0 then false
                 else if 6 <? B then true else if B <? 6 then false
                 else 0 <=? C)
    by (apply isValidVersion_components; assumption).
  rewrite Hv. clearbody A B C. clear Hv.
  split; [| split; [reflexivity |]];
    destruct (Z.ltb_spec 0 A), (Z.ltb_spec A 0), (Z.ltb_spec 6 B),
             (Z.ltb_spec B 6), (Z.leb_spec 0 C);
    repeat split; intros; try reflexivity; try lia; try discriminate.
Qed.

Lemma isValidVersion_triple_witness : isValidVersion "0.7.1" = true.
Proof.
  destruct (isValidVersion_triple false false false "0" "7" "1"
              eq_refl eq_refl eq_refl) as [H _].
  apply H. right. left. split; reflexivity.
Defined.

End VersionGate.

(** ** Running the store *)

Lemma get_tunnel_live h t w :
  tunnels w !! h = Some t -> get_tunnel h w = (Return t, w).
Proof. intros H. unfold get_tunnel. rewrite H. reflexivity. Qed.

Lemma get_client_live c l w :
  clients w !! c = Some l -> get_client c w = (Return l, w).
Proof. intros H. unfold get_client. rewrite H. reflexivity. Qed.

Lemma assign_live h t upd w :
  tunnels w !! h = Some t ->
  assign h upd w
  = (Return tt, mkWorld (clients w) (<[h := upd t]> (tunnels w)) (sent w) (console w)).
Proof.
  intros H. unfold assign, bind. rewrite (get_tunnel_live h t w H). reflexivity.
Qed.

Lemma assign_then_return h t upd w :
  tunnels w !! h = Some t ->
  (assign h upd ;;; ret h) w
  = (Return h, mkWorld (clients w) (<[h := upd t]> (tunnels w)) (sent w) (console w)).
Proof.
  intros H. unfold bind. rewrite (assign_live h t upd w H). reflexivity.
Qed.

(** ** The fluent setters *)

Lemma call_accepted s this t w :
  tunnels w !! this = Some t ->
  accepted s = true ->
  call s this w
  = (Return this,
     mkWorld (clients w) (<[this := update_of s t]> (tunnels w)) (sent w) (console w)).
Proof.
  intros Hlive Hacc.
  destruct s as [v | v | v | v | v | v | |]; simpl call; simpl update_of;
    try (apply assign_then_return; exact Hlive).
  unfold setLANAddress. simpl in Hacc.
  destruct v; simpl in Hacc |- *; try discriminate Hacc;
    try (apply assign_then_return; exact Hlive).
  - destruct b; [discriminate Hacc | apply assign_then_return; exact Hlive].
  - destruct (negb (is_zero x || is_nan x)); [discriminate Hacc |].
    apply assign_then_return; exact Hlive.
  - destruct s as [| c r]; simpl; apply assign_then_return; exact Hlive.
Qed.

Lemma update_of_same_except s t : same_except (target s) t (update_of s t).
Proof.
  destruct s as [v | v | v | v | v | v | |]; try destruct v;
    unfold same_except; simpl; tauto.
Qed.

Lemma update_of_commute s s' t :
  target s' <> target s ->
  update_of s' (update_of s t) = update_of s (update_of s' t).
Proof.
  intros Hne.
  destruct s as [v | v | v | v | v | v | |], s' as [u | u | u | u | u | u | |];
    try (exfalso; apply Hne; reflexivity); try destruct v; try destruct u; reflexivity.
Qed.

(** C10.  Every fluent setter, given an argument of the kind it takes,
    returns the handle it was called on, assigns its own field or flag
    and nothing else: the other fields of the handle, the other handles,
    the clients, the requests sent and the console stay as they were.
    Two setters for different fields give the same world in either
    order. *)
Theorem setters_frame (s : Setter) (this : loc) (t : Tunnel) (w : World) :
  tunnels w !! this = Some t ->
  accepted s = true ->
  exists t',
    call s this w
    = (Return this,
       mkWorld (clients w) (<[this := t']> (tunnels w)) (sent w) (console w))
    /\ same_except (target s) t t'
    /\ (forall h, h <> this -> (<[this := t']> (tunnels w)) !! h = tunnels w !! h)
    /\ (forall s', accepted s' = true -> target s' <> target s ->
          (call s this ;;; call s' this) w = (call s' this ;;; call s this) w).
Proof.
  intros Hlive Hacc. exists (update_of s t).
  split; [apply call_accepted; assumption |].
  split; [apply update_of_same_except |].
  split; [intros h Hh; apply lookup_insert_ne; congruence |].
  intros s' Hacc' Hne. unfold bind.
  rewrite (call_accepted s this t w Hlive Hacc).
  rewrite (call_accepted s' this t w Hlive Hacc').
  rewrite (call_accepted s' this (update_of s t))
    by (simpl; apply lookup_insert_eq || exact Hacc').
  rewrite (call_accepted s this (update_of s' t))
    by (simpl; apply lookup_insert_eq || exact Hacc).
  simpl. rewrite !insert_insert_eq.
  rewrite (update_of_commute s s' t Hne). reflexivity.
Qed.

Lemma setters_frame_witness :
  exists t',
    call (SetName (JStr "web")) 1%positive fresh_world
    = (Return 1%positive,
       mkWorld (clients fresh_world) (<[1%positive := t']> (tunnels fresh_world))
               (sent fresh_world) (console fresh_world))
    /\ same_except FName (blank_tunnel 1%positive) t'.
Proof.
  destruct (setters_frame (SetName (JStr "web")) 1%positive
              (blank_tunnel 1%positive) fresh_world)
    as (t' & Hcall & Hsame & _).
  - reflexivity.
  - reflexivity.
  - exists t'. split; [exact Hcall | exact Hsame].
Defined.

(** C8.  [setPublicAddress] and [setName] store their argument when it
    is truthy and the empty string otherwise: for [undefined], [null]
    and the empty string the field holds the empty string, and it never
    holds [undefined] or [null]. *)
Theorem setPublicAddress_falsy (this : loc) (t : Tunnel) (w : World) (v : JsVal) :
  tunnels w !! this = Some t ->
  exists stored wp wn,
    setPublicAddress this v w = (Return this, wp)
    /\ address_public <$> (tunnels wp !! this) = Some stored
    /\ setName this v w = (Return this, wn)
    /\ name <$> (tunnels wn !! this) = Some stored
    /\ (truthy v = true -> stored = v)
    /\ (truthy v = false -> stored = JStr "")
    /\ (v = JUndefined \/ v = JNull \/ v = JStr "" -> stored = JStr "")
    /\ stored <> JUndefined /\ stored <> JNull.
Proof.
  intros Hlive. exists (js_or v (JStr "")). eexists. eexists.
  split; [unfold setPublicAddress; apply assign_then_return; exact Hlive |].
  split; [simpl; rewrite lookup_insert_eq; reflexivity |].
  split; [unfold setName; apply assign_then_return; exact Hlive |].
  split; [simpl; rewrite lookup_insert_eq; reflexivity |].
  unfold js_or.
  split; [intros ->; reflexivity |].
  split; [intros ->; reflexivity |].
  split; [intros [-> | [-> | ->]]; reflexivity |].
  split; destruct (truthy v) eqn:E; try discriminate;
    intros ->; discriminate E.
Qed.

Lemma setPublicAddress_falsy_witness :
  exists wp,
    setPublicAddress 1%positive JUndefined fresh_world = (Return 1%positive, wp)
    /\ address_public <$> (tunnels wp !! 1%positive) = Some (JStr "").
Proof.
  destruct (setPublicAddress_falsy 1%positive (blank_tunnel 1%positive) fresh_world
              JUndefined eq_refl)
    as (stored & wp & wn & Hp & Hstored & _ & _ & _ & Hfalsy & _).
  exists wp. split; [exact Hp |].
  rewrite <- (Hfalsy eq_refl). exact Hstored.
Defined.

(** ** The LAN address *)

Lemma eqb_length s1 s2 : String.eqb s1 s2 = true -> String.length s1 = String.length s2.
Proof.
  destruct (String.eqb_spec s1 s2) as [-> | _]; [reflexivity | discriminate].
Qed.

Lemma length_append s1 s2 :
  String.length (s1 ++ s2) = (String.length s1 + String.length s2)%nat.
Proof. induction s1 as [| c r IH]; simpl; [| rewrite IH]; reflexivity. Qed.

Lemma strip_suffix_eq suf s :
  strip_suffix suf s
  = if String.eqb s suf then Some EmptyString
    else match s with
         | EmptyString => None
         | String c r =>
             match strip_suffix suf r with
             | Some p => Some (String c p)
             | None => None
             end
         end.
Proof. destruct s; reflexivity. Qed.

Lemma strip_suffix_Some suf : forall s p,
  strip_suffix suf s = Some p -> s = p ++ suf.
Proof.
  induction s as [| c r IH]; intros p; rewrite strip_suffix_eq.
  - destruct (String.eqb_spec EmptyString suf) as [<- | _]; [| discriminate].
    intros [= <-]. reflexivity.
  - destruct (String.eqb_spec (String c r) suf) as [<- | _].
    + intros [= <-]. reflexivity.
    + destruct (strip_suffix suf r) as [q |] eqn:E; [| discriminate].
      intros [= <-]. simpl. rewrite (IH q eq_refl). reflexivity.
Qed.

Lemma strip_suffix_app suf : forall p, strip_suffix suf (p ++ suf) = Some p.
Proof.
  induction p as [| c p IH].
  - rewrite strip_suffix_eq. simpl. rewrite String.eqb_refl. reflexivity.
  - change (String c p ++ suf) with (String c (p ++ suf)).
    rewrite strip_suffix_eq, IH.
    destruct (String.eqb (String c (p ++ suf)) suf) eqn:E; [| reflexivity].
    apply eqb_length in E. simpl in E. rewrite length_append in E. lia.
Qed.

Lemma endsWith_iff suf s : endsWith suf s = true <-> exists p, s = p ++ suf.
Proof.
  unfold endsWith. split.
  - destruct (strip_suffix suf s) as [p |] eqn:E; [| discriminate].
    intros _. exists p. apply strip_suffix_Some, E.
  - intros [p ->]. rewrite strip_suffix_app. reflexivity.
Qed.

Lemma replace_dot_local_suffix p : replace_dot_local (p ++ ".local") = p.
Proof. unfold replace_dot_local. rewrite strip_suffix_app. reflexivity. Qed.

Lemma replace_dot_local_other s :
  (forall p, s <> p ++ ".local") -> replace_dot_local s = s.
Proof.
  intros H. unfold replace_dot_local.
  destruct (strip_suffix ".local" s) as [p |] eqn:E; [| reflexivity].
  exfalso. apply (H p), strip_suffix_Some, E.
Qed.

Lemma replace_dot_local_empty s :
  s <> "" -> (replace_dot_local s = "" <-> s = ".local").
Proof.
  intros Hs. split.
  - unfold replace_dot_local.
    destruct (strip_suffix ".local" s) as [p |] eqn:E.
    + intros ->. apply strip_suffix_Some in E. exact E.
    + intros ->. contradiction.
  - intros ->. reflexivity.
Qed.

Lemma getLANAddress_string h t s w :
  tunnels w !! h = Some t ->
  address_mdns t = JStr s ->
  getLANAddress h w
  = if String.eqb s "" then (Throw (Error (JStr "LAN address is not being set")), w)
    else (Return (JStr (if endsWith ".local" s then s else s ++ ".local")), w).
Proof.
  intros Hlive Hs. unfold getLANAddress, bind.
  rewrite (get_tunnel_live h t w Hlive), Hs. simpl.
  destruct (String.eqb s ""); reflexivity.
Qed.

(** C5 (amended).  [setLANAddress(s)] on a non-empty string stores [s]
    without its final ".local" when it has one.  When what is stored is
    not empty, [getLANAddress()] then returns it, with ".local" appended
    unless it ends with it already; [".local"] alone stores the empty
    string, and [getLANAddress()] then fails as it does on a handle
    whose LAN address is unset or empty.  ["foo.local"] stores ["foo"]
    and reads back as ["foo.local"]. *)
Theorem LAN_address_round_trip (this : loc) (t : Tunnel) (w : World) (s : string) :
  tunnels w !! this = Some t ->
  s <> "" ->
  exists stored w1,
    setLANAddress this (JStr s) w = (Return this, w1)
    /\ address_mdns <$> (tunnels w1 !! this) = Some (JStr stored)
    /\ (forall p, s = p ++ ".local" -> stored = p)
    /\ ((forall p, s <> p ++ ".local") -> stored = s)
    /\ (stored = "" <-> s = ".local")
    /\ (stored <> "" -> (exists p, stored = p ++ ".local") ->
        getLANAddress this w1 = (Return (JStr stored), w1))
    /\ (stored <> "" -> (forall p, stored <> p ++ ".local") ->
        getLANAddress this w1 = (Return (JStr (stored ++ ".local")), w1))
    /\ (stored = "" ->
        getLANAddress this w1
        = (Throw (Error (JStr "LAN address is not being set")), w1))
    /\ (s = "foo.local" ->
        stored = "foo"
        /\ getLANAddress this w1 = (Return (JStr "foo.local"), w1))
    /\ (forall h u w', tunnels w' !! h = Some u ->
          address_mdns u = JUndefined \/ address_mdns u = JStr "" ->
          getLANAddress h w'
          = (Throw (Error (JStr "LAN address is not being set")), w')).
Proof.
  intros Hlive Hs.
  exists (replace_dot_local s). eexists.
  split.
  { apply (call_accepted (SetLANAddress (JStr s)) this t w Hlive).
    apply orb_true_r. }
  cbn [tunnels update_of].
  set (w1 := mkWorld _ _ _ _).
  assert (Hlive1 : tunnels w1 !! this
                   = Some (with_address_mdns (JStr (replace_dot_local s)) t))
    by apply lookup_insert_eq.
  assert (Hget : getLANAddress this w1
                 = if String.eqb (replace_dot_local s) ""
                   then (Throw (Error (JStr "LAN address is not being set")), w1)
                   else (Return (JStr (if endsWith ".local" (replace_dot_local s)
                                       then replace_dot_local s
                                       else replace_dot_local s ++ ".local")), w1))
    by (apply (getLANAddress_string this _ _ w1 Hlive1); reflexivity).
  split; [rewrite lookup_insert_eq; reflexivity |].
  split; [intros p ->; apply replace_dot_local_suffix |].
  split; [apply replace_dot_local_other |].
  split; [apply replace_dot_local_empty, Hs |].
  split.
  { intros Hne Hsuf. rewrite Hget.
    destruct (String.eqb_spec (replace_dot_local s) "") as [E | _]; [contradiction |].
    rewrite (proj2 (endsWith_iff ".local" _) Hsuf). reflexivity. }
  split.
  { intros Hne Hsuf. rewrite Hget.
    destruct (String.eqb_spec (replace_dot_local s) "") as [E | _]; [contradiction |].
    destruct (endsWith ".local" (replace_dot_local s)) eqn:E; [| reflexivity].
    apply endsWith_iff in E as [p E]. exfalso. exact (Hsuf p E). }
  split.
  { intros E. rewrite Hget, E. reflexivity. }
  split.
  { intros E. rewrite Hget. subst s. split; reflexivity. }
  intros h u w' Hu [E | E]; unfold getLANAddress, bind;
    rewrite (get_tunnel_live h u w' Hu), E; reflexivity.
Qed.

Lemma LAN_address_round_trip_witness :
  exists w1,
    setLANAddress 1%positive (JStr "my-app.local") fresh_world = (Return 1%positive, w1)
    /\ address_mdns <$> (tunnels w1 !! 1%positive) = Some (JStr "my-app")
    /\ getLANAddress 1%positive w1 = (Return (JStr "my-app.local"), w1).
Proof.
  destruct (LAN_address_round_trip 1%positive (blank_tunnel 1%positive) fresh_world
              "my-app.local" eq_refl)
    as (stored & w1 & Hset & Hstored & Hsuf & _ & _ & _ & Happend & _).
  - discriminate.
  - assert (E : stored = "my-app") by (apply Hsuf; reflexivity). subst stored.
    exists w1. split; [exact Hset |]. split; [exact Hstored |].
    apply Happend; [discriminate |].
    intros p Hp. apply (f_equal (endsWith ".local")) in Hp.
    rewrite (proj2 (endsWith_iff ".local" (p ++ ".local"))) in Hp by (exists p; reflexivity).
    discriminate Hp.
Defined.

(** C5, as first stated, fails on [".local"]: the input is not empty,
    what is stored is, and [getLANAddress()] raises instead of
    returning the stored value with ".local" appended. *)
Lemma getLANAddress_after_dot_local :
  exists w1,
    setLANAddress 1%positive (JStr ".local") fresh_world = (Return 1%positive, w1)
    /\ address_mdns <$> (tunnels w1 !! 1%positive) = Some (JStr "")
    /\ getLANAddress 1%positive w1
       = (Throw (Error (JStr "LAN address is not being set")), w1)
    /\ getLANAddress 1%positive w1 <> (Return (JStr ".local"), w1).
Proof.
  eexists. split; [reflexivity |]. split; [reflexivity |].
  split; [reflexivity | discriminate].
Qed.

(** ** Requests *)

Section Requests.

Variable daemon : list Request -> Request -> FetchOutcome.

Lemma request_run c l endpoint method body payload w :
  clients w !! c = Some l ->
  snapshot body w = (Return payload, w) ->
  request daemon c endpoint method body w
  = let rq := build_request l endpoint method payload in
    match daemon (sent w) rq with
    | Rejected e =>
        (Return JUndefined,
         if instanceofError e
         then after_log (CError no_client_hint e) (after_fetch rq w)
         else after_fetch rq w)
    | Responded r => (read_response r, after_fetch rq w)
    end.
Proof.
  intros Hc Hb. unfold request, bind.
  rewrite (get_client_live c l w Hc), Hb. unfold fetch.
  destruct (daemon (sent w) (build_request l endpoint method payload)) as [e | r].
  - destruct (instanceofError e); reflexivity.
  - reflexivity.
Qed.

Lemma snapshot_None w : snapshot None w = (Return None, w).
Proof. reflexivity. Qed.

Lemma snapshot_live h t w :
  tunnels w !! h = Some t -> snapshot (Some h) w = (Return (Some t), w).
Proof.
  intros H. unfold snapshot, bind. rewrite (get_tunnel_live h t w H). reflexivity.
Qed.

Lemma read_response_outdated st ver js :
  ver = None \/ (exists v, ver = Some v /\ isValidVersion v = false) ->
  read_response (mkResponse st ver js) = Throw outdated.
Proof.
  unfold read_response. simpl.
  intros [-> | (v & -> & Hv)]; [reflexivity |].
  rewrite Hv, orb_true_r. reflexivity.
Qed.

(** C6.  A response without the Lokal-Server-Version header, or with
    one that the version check rejects, makes [request] fail with the
    outdated-client error whatever its status and body are, status 200
    and a well-formed body included: they are not looked at. *)
Theorem request_version_gate (c : loc) (l : Lokal) (endpoint : Endpoint)
    (method : string) (body : option loc) (payload : option Tunnel) (w : World)
    (st : N) (ver : option string) (js : option JsVal) :
  clients w !! c = Some l ->
  snapshot body w = (Return payload, w) ->
  daemon (sent w) (build_request l endpoint method payload)
  = Responded (mkResponse st ver js) ->
  ver = None \/ (exists v, ver = Some v /\ isValidVersion v = false) ->
  request daemon c endpoint method body w
  = (Throw outdated, after_fetch (build_request l endpoint method payload) w).
Proof.
  intros Hc Hb Hd Hver.
  rewrite (request_run c l endpoint method body payload w Hc Hb).
  cbv zeta. rewrite Hd, (read_response_outdated st ver js Hver). reflexivity.
Qed.

(** C7.  When [fetch] rejects, [request] does not throw: it returns
    [undefined], and when the rejection is an [Error], as the TypeError
    of a failed connection is, it has written the hint on the console.
    The request has gone out; clients and handles are as before. *)
Theorem request_transport_failure (c : loc) (l : Lokal) (endpoint : Endpoint)
    (method : string) (body : option loc) (payload : option Tunnel) (w : World)
    (e : Exn) :
  clients w !! c = Some l ->
  snapshot body w = (Return payload, w) ->
  daemon (sent w) (build_request l endpoint method payload) = Rejected e ->
  exists w',
    request daemon c endpoint method body w = (Return JUndefined, w')
    /\ sent w' = (sent w ++ [build_request l endpoint method payload])%list
    /\ clients w' = clients w /\ tunnels w' = tunnels w
    /\ (instanceofError e = true ->
        console w' = (console w ++ [CError no_client_hint e])%list)
    /\ (instanceofError e = false -> console w' = console w)
    /\ (forall what, e = TypeError what ->
        console w' = (console w ++ [CError no_client_hint e])%list).
Proof.
  intros Hc Hb Hd.
  rewrite (request_run c l endpoint method body payload w Hc Hb).
  cbv zeta. rewrite Hd. eexists. split; [reflexivity |].
  destruct (instanceofError e) eqn:E; simpl; repeat split; try congruence.
  intros what ->. discriminate E.
Qed.

End Requests.

Lemma request_version_gate_witness :
  request (answering None created_body) 1%positive TunnelStart "POST" None fresh_world
  = (Throw outdated,
     after_fetch (build_request (mkLokal defaultBaseURL None None) TunnelStart "POST" None)
                 fresh_world).
Proof.
  apply (request_version_gate (answering None created_body) 1%positive
           (mkLokal defaultBaseURL None None) TunnelStart "POST" None None fresh_world
           200%N None (Some created_body)).
  - reflexivity.
  - reflexivity.
  - reflexivity.
  - left. reflexivity.
Defined.

Lemma request_transport_failure_witness :
  exists w',
    request unreachable 1%positive TunnelStart "POST" None fresh_world
    = (Return JUndefined, w')
    /\ console w' = [CError no_client_hint (TypeError "fetch failed")].
Proof.
  destruct (request_transport_failure unreachable 1%positive
              (mkLokal defaultBaseURL None None) TunnelStart "POST" None None
              fresh_world (TypeError "fetch failed") eq_refl eq_refl eq_refl)
    as (w' & Hreq & _ & _ & _ & Hlog & _).
  exists w'. split; [exact Hreq |]. exact (Hlog eq_refl).
Defined.

(** ** The version gate on malformed versions *)

Lemma ge_NaN_l x : ge NaN x = false.
Proof. destruct x; reflexivity. Qed.

Lemma is_nan_eq x : is_nan x = true -> x = NaN.
Proof. destruct x; try discriminate. reflexivity. Qed.

Lemma isValidVersion_NaN_patch v :
  let parts := map Number (split "." v) in
  let major := ToNumber (parts !! 0%nat) in
  let minor := ToNumber (parts !! 1%nat) in
  let patch := ToNumber (parts !! 2%nat) in
  is_nan patch = true ->
  isValidVersion v
  = if gt major zero then true
    else if lt major zero then false
    else gt minor six.
Proof.
  intros parts major minor patch H. rewrite isValidVersion_unfold.
  apply is_nan_eq in H. subst patch major minor parts. cbv zeta.
  rewrite H, ge_NaN_l.
  repeat match goal with
         | |- context [if ?b then _ else _] => destruct b
         end; reflexivity.
Qed.

(** Every comparison with NaN is false, whichever side it is on. *)
Lemma compare_NaN x y :
  is_nan x = true \/ is_nan y = true ->
  gt x y = false /\ lt x y = false /\ ge x y = false.
Proof.
  intros [H | H]; apply is_nan_eq in H; subst; destruct x || destruct y;
    repeat split; reflexivity.
Qed.

(** The slot a component is read from: the number of the component when
    there is one, NaN when the string has too few. *)
Lemma ToNumber_component (parts : list string) (i : nat) :
  ToNumber (map Number parts !! i)
  = match parts !! i with
    | Some s => Number s
    | None => NaN
    end.
Proof.
  revert i. induction parts as [| s parts IH]; intros [| i]; try reflexivity.
  exact (IH i).
Qed.

Lemma isValidVersion_NaN_major v :
  let parts := map Number (split "." v) in
  let major := ToNumber (parts !! 0%nat) in
  let minor := ToNumber (parts !! 1%nat) in
  let patch := ToNumber (parts !! 2%nat) in
  is_nan major = true ->
  isValidVersion v
  = if gt minor six then true else if lt minor six then false else ge patch zero.
Proof.
  intros parts major minor patch H. rewrite isValidVersion_unfold.
  apply is_nan_eq in H. subst patch minor major parts. cbv zeta. rewrite H.
  destruct (compare_NaN NaN zero (or_introl eq_refl)) as (-> & -> & _). reflexivity.
Qed.

Lemma isValidVersion_NaN_minor v :
  let parts := map Number (split "." v) in
  let major := ToNumber (parts !! 0%nat) in
  let minor := ToNumber (parts !! 1%nat) in
  let patch := ToNumber (parts !! 2%nat) in
  is_nan minor = true ->
  isValidVersion v
  = if gt major zero then true else if lt major zero then false else ge patch zero.
Proof.
  intros parts major minor patch H. rewrite isValidVersion_unfold.
  apply is_nan_eq in H. subst patch minor major parts. cbv zeta. rewrite H.
  destruct (compare_NaN NaN six (or_introl eq_refl)) as (-> & -> & _). reflexivity.
Qed.

(** C9 (amended).  A version string that does not consist of exactly
    three numeric components is not rejected for that.  Every
    comparison with NaN is false, so a component that is absent, or
    that [Number] turns into NaN, decides nothing and the check goes on
    to the next comparison; the last one, [patch >= minPatch], is
    false when the patch is NaN.  Hence:
    - with the third component absent or NaN (["0.6"], ["abc"]) the
      string is accepted exactly when the first is greater than 0, or
      is not less than 0 while the second is greater than 6;
    - with the second NaN the verdict is that of the first and the
      third alone;
    - with the first NaN the verdict is that of the second and the
      third alone.
    Whatever header the check rejects, the response carrying it fails
    with the outdated-client error although the header is there.
    ["0.6"], ["abc"], ["x.5.0"], ["0.x.-1"] and ["-1.x.0"] are
    rejected; ["1.x.0"], ["0.x.0"], ["x.6.0"], ["1"] and ["0.6."], whose
    empty third component is the number 0, are accepted. *)
Theorem isValidVersion_malformed (daemon : list Request -> Request -> FetchOutcome)
    (v : string) :
  let parts := map Number (split "." v) in
  let major := ToNumber (parts !! 0%nat) in
  let minor := ToNumber (parts !! 1%nat) in
  let patch := ToNumber (parts !! 2%nat) in
  (forall x y, is_nan x = true \/ is_nan y = true ->
               gt x y = false /\ lt x y = false /\ ge x y = false)
  /\ (forall i, ToNumber (parts !! i)
                = match split "." v !! i with
                  | Some s => Number s
                  | None => NaN
                  end)
  /\ ((List.length (split "." v) < 3)%nat -> is_nan patch = true)
  /\ (is_nan patch = true ->
      (isValidVersion v = true
       <-> gt major zero = true \/ (lt major zero = false /\ gt minor six = true)))
  /\ (is_nan minor = true ->
      isValidVersion v
      = if gt major zero then true else if lt major zero then false
        else ge patch zero)
  /\ (is_nan major = true ->
      isValidVersion v
      = if gt minor six then true else if lt minor six then false
        else ge patch zero)
  /\ (isValidVersion v = false ->
      forall c l endpoint method body payload w st js,
        clients w !! c = Some l ->
        snapshot body w = (Return payload, w) ->
        daemon (sent w) (build_request l endpoint method payload)
        = Responded (mkResponse st (Some v) js) ->
        request daemon c endpoint method body w
        = (Throw outdated, after_fetch (build_request l endpoint method payload) w))
  /\ (isValidVersion "0.6" = false /\ isValidVersion "abc" = false
      /\ isValidVersion "x.5.0" = false /\ isValidVersion "0.x.-1" = false
      /\ isValidVersion "-1.x.0" = false)
  /\ (isValidVersion "1.x.0" = true /\ isValidVersion "0.x.0" = true
      /\ isValidVersion "x.6.0" = true /\ isValidVersion "1" = true
      /\ isValidVersion "0.6." = true).
Proof.
  intros parts major minor patch.
  split; [exact compare_NaN |].
  split; [intros i; apply ToNumber_component |].
  split.
  { intros Hlen. unfold patch, parts. rewrite ToNumber_component.
    rewrite (lookup_ge_None_2 (split "." v) 2) by lia. reflexivity. }
  split.
  { intros H. pose proof (isValidVersion_NaN_patch v H) as Hv.
    cbv zeta in Hv. fold parts in Hv. fold major in Hv. fold minor in Hv.
    rewrite Hv.
    destruct (gt major zero), (lt major zero), (gt minor six); intuition congruence. }
  split; [exact (isValidVersion_NaN_minor v) |].
  split; [exact (isValidVersion_NaN_major v) |].
  split.
  { intros Hrej c l endpoint method body payload w st js Hc Hb Hd.
    rewrite (request_run daemon c l endpoint method body payload w Hc Hb).
    cbv zeta. rewrite Hd, read_response_outdated; [reflexivity |].
    right. exists v. split; [reflexivity | exact Hrej]. }
  split; repeat split; vm_compute; reflexivity.
Qed.

Lemma isValidVersion_malformed_witness :
  is_nan (ToNumber (map Number (split "." "0.6") !! 2%nat)) = true
  /\ isValidVersion "0.6" = false
  /\ request (answering (Some "0.6") created_body) 1%positive TunnelStart "POST" None
       fresh_world
     = (Throw outdated,
        after_fetch (build_request (mkLokal defaultBaseURL None None) TunnelStart
                       "POST" None) fresh_world).
Proof.
  destruct (isValidVersion_malformed (answering (Some "0.6") created_body) "0.6")
    as (_ & _ & Habsent & _ & _ & _ & Hreq & (Hrej & _) & _).
  split; [apply Habsent; vm_compute; lia |].
  split; [exact Hrej |].
  apply (Hreq Hrej 1%positive (mkLokal defaultBaseURL None None) TunnelStart "POST" None
           None fresh_world 200%N (Some created_body)); reflexivity.
Defined.

(** C9, as first stated, fails on its own example ["1.x.0"]: the
    second component is not numeric and the version is accepted, the
    major deciding before the minor is looked at.  A component that is
    not numeric is passed over as well when it comes first or second
    with the rest at the minimum. *)
Lemma isValidVersion_accepts_malformed :
  split "." "1.x.0" = ["1"; "x"; "0"]
  /\ is_nan (Number "x") = true
  /\ isValidVersion "1.x.0" = true
  /\ isValidVersion "0.x.0" = true
  /\ isValidVersion "x.6.0" = true
  /\ isValidVersion "1" = true.
Proof. repeat split; reflexivity. Qed.

(** ** Creating a tunnel and reading its public address *)

Section Handles.

Variable daemon : list Request -> Request -> FetchOutcome.

Lemma get_total v k : get v k <> Dangling.
Proof. destruct v; simpl; discriminate. Qed.

Lemma get_object fields k : get (JObj fields) k = Return (assoc k fields).
Proof. reflexivity. Qed.

Lemma array_length_nonzero e rest :
  exists len, get (JArr (e :: rest)) "length" = Return len
              /\ is_number_zero len = false.
Proof.
  exists (JNum (of_N false (N.of_nat (S (List.length rest))))).
  split; [reflexivity |].
  unfold is_number_zero, JsNumber.eq, SFeqb.
  rewrite (proj1 (of_N_vs_zero false _)). unfold signed.
  destruct (Z.compare_spec (Z.of_N (N.of_nat (S (List.length rest)))) 0%Z)
    as [H | H | H]; try reflexivity; lia.
Qed.

Lemma get_first_total v : get_first v <> Dangling.
Proof. destruct v; simpl; discriminate. Qed.

Lemma includes_colon_total v : includes_colon v <> Dangling.
Proof. destruct v; simpl; discriminate. Qed.

Lemma read_response_total r : read_response r <> Dangling.
Proof.
  unfold read_response.
  destruct (server_version r) as [v |]; [| discriminate].
  destruct (String.eqb v "" || negb (isValidVersion v)); [discriminate |].
  destruct (json r) as [d |]; [| discriminate].
  destruct (negb (ok r)); [| discriminate].
  destruct (get d "message") eqn:E; try discriminate.
  exfalso. exact (get_total _ _ E).
Qed.

Ltac outcome_cases :=
  repeat match goal with
         | |- context [match get ?v ?k with _ => _ end] =>
             let E := fresh "E" in
             destruct (get v k) eqn:E; [ | | exfalso; exact (get_total _ _ E)]
         | |- context [match get_first ?v with _ => _ end] =>
             let E := fresh "E" in
             destruct (get_first v) eqn:E; [ | | exfalso; exact (get_first_total _ E)]
         | |- context [match includes_colon ?v with _ => _ end] =>
             let E := fresh "E" in
             destruct (includes_colon v) eqn:E;
             [ | | exfalso; exact (includes_colon_total _ E)]
         | |- context [if ?b then _ else _] => destruct b eqn:?
         end.

(** [request] leaves clients and handles alone. *)
Lemma request_frame c endpoint method body w o w1 :
  request daemon c endpoint method body w = (o, w1) ->
  clients w1 = clients w /\ tunnels w1 = tunnels w.
Proof.
  unfold request, bind, get_client, snapshot, bind, get_tunnel, fetch, ret, lift,
    console_log.
  destruct (clients w !! c) as [l |]; [| intros [= <- <-]; split; reflexivity].
  destruct body as [h |].
  - destruct (tunnels w !! h) as [t |]; [| intros [= <- <-]; split; reflexivity].
    destruct (daemon _ _) as [e | r]; [destruct (instanceofError e) |];
      intros [= <- <-]; split; reflexivity.
  - destruct (daemon _ _) as [e | r]; [destruct (instanceofError e) |];
      intros [= <- <-]; split; reflexivity.
Qed.

(** C2.  With neither a LAN address nor a public address on the handle
    (unset or empty, or falsy in any other way), [create()] fails at
    once: nothing is sent and the world, the handle in it, is as it
    was. *)
Theorem create_requires_address (this : loc) (t : Tunnel) (w : World) :
  tunnels w !! this = Some t ->
  truthy (address_mdns t) = false ->
  truthy (address_public t) = false ->
  create daemon this w
  = (Throw (Error (JStr "Please enable either LAN address or random/custom public URL")),
     w)
  /\ sent (snd (create daemon this w)) = sent w
  /\ tunnels (snd (create daemon this w)) !! this = Some t.
Proof.
  intros Hlive Hm Hp.
  assert (H : create daemon this w
              = (Throw (Error (JStr "Please enable either LAN address or random/custom public URL")),
                 w)).
  { unfold create, bind. rewrite (get_tunnel_live this t w Hlive), Hm, Hp.
    reflexivity. }
  rewrite H. split; [reflexivity |]. split; [reflexivity | exact Hlive].
Qed.

Lemma showBanner_frame this t w :
  tunnels w !! this = Some t ->
  exists w', showBanner this w = (Return tt, w')
             /\ clients w' = clients w /\ tunnels w' = tunnels w /\ sent w' = sent w.
Proof.
  intros Hlive. unfold showBanner, bind.
  rewrite (get_tunnel_live this t w Hlive). unfold console_log, ret. simpl.
  destruct (truthy (address_public t)), (truthy (address_mdns t)); simpl;
    eexists; (split; [reflexivity |]); repeat split.
Qed.

(** C4.  When the request of [create()] comes back with a response
    object: if it says success and its data list starts with an entry
    object, [create] returns the handle, whose [address_public],
    [address_mdns] and [id] are now the entry's and whose other fields
    are as before; if it does not say success, or its data list is
    empty, [create] fails with the response's message when it has one
    and with ["Tunnel creation failing"] otherwise, and no handle has
    changed. *)
Theorem create_outcome (this : loc) (t : Tunnel) (w : World)
    (fields : list (string * JsVal)) (w1 : World) :
  tunnels w !! this = Some t ->
  truthy (address_mdns t) || truthy (address_public t) = true ->
  request daemon (lokal t) TunnelStart "POST" (Some this) w = (Return (JObj fields), w1) ->
  (forall entry rest,
      truthy (assoc "success" fields) = true ->
      assoc "data" fields = JArr (JObj entry :: rest) ->
      exists t2 w2,
        create daemon this w = (Return this, w2)
        /\ tunnels w2 = <[this := t2]> (tunnels w)
        /\ address_public t2 = assoc "address_public" entry
        /\ address_mdns t2 = assoc "address_mdns" entry
        /\ id t2 = assoc "id" entry
        /\ lokal t2 = lokal t /\ name t2 = name t /\ tunnel_type t2 = tunnel_type t
        /\ local_address t2 = local_address t /\ server_id t2 = server_id t
        /\ address_tunnel t2 = address_tunnel t
        /\ address_tunnel_port t2 = address_tunnel_port t
        /\ inspect t2 = inspect t /\ options t2 = options t
        /\ ignoreDuplicateFlag t2 = ignoreDuplicateFlag t
        /\ startupBannerFlag t2 = startupBannerFlag t
        /\ clients w2 = clients w /\ sent w2 = sent w1)
  /\ (truthy (assoc "success" fields) = false \/ assoc "data" fields = JArr [] ->
      create daemon this w
      = (Throw (Error (if truthy (assoc "message" fields)
                       then assoc "message" fields
                       else JStr "Tunnel creation failing")), w1)
      /\ tunnels w1 = tunnels w).
Proof.
  intros Hlive Haddr Hreq.
  destruct (request_frame _ _ _ _ _ _ _ Hreq) as [Hc1 Ht1].
  assert (Hlive1 : tunnels w1 !! this = Some t) by (rewrite Ht1; exact Hlive).
  assert (Hguard : negb (truthy (address_mdns t)) && negb (truthy (address_public t))
                   = false).
  { destruct (truthy (address_mdns t)), (truthy (address_public t));
      try reflexivity; discriminate Haddr. }
  assert (Hcreate : create daemon this w
                    = (failed <- no_result (JObj fields) ;;
                       if failed then
                         message <- lift (get (JObj fields) "message") ;;
                         throw (Error (js_or message (JStr "Tunnel creation failing")))
                       else
                         data <- lift (get (JObj fields) "data") ;;
                         tunnel <- lift (get_first data) ;;
                         v <- lift (get tunnel "address_public") ;;
                         assign this (with_address_public v) ;;;
                         v <- lift (get tunnel "address_mdns") ;;
                         assign this (with_address_mdns v) ;;;
                         v <- lift (get tunnel "id") ;;
                         assign this (with_id v) ;;;
                         t' <- get_tunnel this ;;
                         (if startupBannerFlag t' then showBanner this else ret tt) ;;;
                         ret this) w1).
  { unfold create at 1. unfold bind at 1.
    rewrite (get_tunnel_live this t w Hlive), Hguard.
    unfold bind at 1. rewrite Hreq. reflexivity. }
  rewrite Hcreate. clear Hcreate.
  split.
  - intros entry rest Hsuccess Hdata.
    unfold no_result, bind, lift, ret. rewrite !get_object, Hsuccess, Hdata.
    destruct (array_length_nonzero (JObj entry) rest) as (len & -> & ->).
    cbn [negb get_first]. rewrite !get_object.
    rewrite (assign_live this t _ w1 Hlive1).
    set (t1 := with_address_public (assoc "address_public" entry) t).
    set (wa := mkWorld _ _ _ _).
    rewrite (assign_live this t1 _ wa) by apply lookup_insert_eq.
    set (t2 := with_address_mdns (assoc "address_mdns" entry) t1).
    set (wb := mkWorld _ _ _ _).
    rewrite (assign_live this t2 _ wb) by apply lookup_insert_eq.
    set (t3 := with_id (assoc "id" entry) t2).
    set (wc := mkWorld _ _ _ _).
    assert (Hlive3 : tunnels wc !! this = Some t3) by apply lookup_insert_eq.
    rewrite (get_tunnel_live this t3 wc Hlive3).
    assert (Htun : tunnels wc = <[this := t3]> (tunnels w)).
    { unfold wc, wb, wa. simpl. rewrite !insert_insert_eq, Ht1. reflexivity. }
    destruct (startupBannerFlag t3).
    + destruct (showBanner_frame this t3 wc Hlive3) as (w' & -> & Hc' & Ht' & Hs').
      exists t3, w'. split; [reflexivity |].
      split; [rewrite Ht'; exact Htun |].
      rewrite Hc', Hs'. simpl. repeat split; assumption.
    + exists t3, wc. split; [reflexivity |].
      split; [exact Htun |]. simpl. repeat split; assumption.
  - intros Hfail. split; [| exact Ht1].
    unfold no_result, bind, lift, ret, throw, js_or. rewrite !get_object.
    destruct (truthy (assoc "success" fields)) eqn:Hs; cbn [negb]; [| reflexivity].
    destruct Hfail as [Hf | Hdata]; [discriminate Hf |].
    rewrite Hdata. reflexivity.
Qed.

Lemma updatePublicURLPort_run this t l w :
  tunnels w !! this = Some t ->
  clients w !! lokal t = Some l ->
  truthy (id t) = true ->
  let rq := build_request l (TunnelInfo (id t)) "GET" None in
  exists o w',
    updatePublicURLPort daemon this w = (o, w')
    /\ o <> Dangling
    /\ sent w' = (sent w ++ [rq])%list
    /\ clients w' = clients w
    /\ (forall h, h <> this -> tunnels w' !! h = tunnels w !! h).
Proof.
  intros Hlive Hc Hid rq.
  unfold updatePublicURLPort. unfold bind at 1.
  rewrite (get_tunnel_live this t w Hlive), Hid. cbn [negb].
  unfold bind at 1.
  rewrite (request_run daemon (lokal t) l (TunnelInfo (id t)) "GET" None None w Hc
             (snapshot_None w)).
  cbv zeta. fold rq.
  assert (Htail : forall response w1,
            tunnels w1 = tunnels w -> clients w1 = clients w ->
            sent w1 = (sent w ++ [rq])%list ->
            exists o w',
              (failed <- no_result response ;;
               if failed then throw (Error (JStr "Could not get tunnel info"))
               else
                 data <- lift (get response "data") ;;
                 tunnel <- lift (get_first data) ;;
                 v <- lift (get tunnel "address_public") ;;
                 has_port <- lift (includes_colon v) ;;
                 if negb has_port then throw (Error (JStr "Could not get assigned port"))
                 else
                   v <- lift (get tunnel "address_public") ;;
                   assign this (with_address_public v)) w1 = (o, w')
              /\ o <> Dangling
              /\ sent w' = (sent w ++ [rq])%list
              /\ clients w' = clients w
              /\ (forall h, h <> this -> tunnels w' !! h = tunnels w !! h)).
  { intros response w1 Ht1 Hc1 Hs1.
    assert (Hlive1 : tunnels w1 !! this = Some t) by (rewrite Ht1; exact Hlive).
    unfold no_result, bind, lift, ret, throw.
    outcome_cases;
      try (eexists; eexists; split; [reflexivity |];
           split; [discriminate |]; split; [exact Hs1 |]; split; [exact Hc1 |];
           intros h _; rewrite Ht1; reflexivity).
    all: rewrite (assign_live this t _ w1 Hlive1).
    all: eexists; eexists; split; [reflexivity |].
    all: split; [discriminate |]; split; [exact Hs1 |]; split; [exact Hc1 |].
    all: intros h Hh; simpl; rewrite lookup_insert_ne by congruence.
    all: rewrite Ht1; reflexivity. }
  destruct (daemon (sent w) rq) as [e | r].
  - apply Htail; destruct (instanceofError e); reflexivity.
  - destruct (read_response r) as [response | e |] eqn:Hr.
    + apply Htail; reflexivity.
    + eexists; eexists. split; [reflexivity |].
      split; [discriminate |]. repeat split.
    + exfalso. exact (read_response_total r Hr).
Qed.

Lemma getPublicAddress_pending_run this t a w :
  tunnels w !! this = Some t ->
  address_public t = JStr a ->
  a <> "" ->
  includes ":" a = false ->
  is_not_HTTP (tunnel_type t) = true ->
  getPublicAddress daemon this w
  = (updatePublicURLPort daemon this ;;; throw not_yet_assigned) w.
Proof.
  intros Hlive Ha Hne Hcolon Htype.
  unfold getPublicAddress. unfold bind at 1.
  rewrite (get_tunnel_live this t w Hlive), Ha, Htype.
  cbn [truthy]. destruct (String.eqb_spec a "") as [E | _]; [contradiction |].
  cbn [negb includes_colon]. rewrite Hcolon.
  unfold bind at 1. unfold bind at 1. unfold lift, ret. reflexivity.
Qed.

Lemma refresh_run this t l w ver st (fields : list (string * JsVal)) :
  tunnels w !! this = Some t ->
  clients w !! lokal t = Some l ->
  truthy (id t) = true ->
  ver <> "" -> isValidVersion ver = true ->
  ok (mkResponse st (Some ver) (Some (JObj fields))) = true ->
  daemon (sent w) (build_request l (TunnelInfo (id t)) "GET" None)
  = Responded (mkResponse st (Some ver) (Some (JObj fields))) ->
  updatePublicURLPort daemon this w
  = (failed <- no_result (JObj fields) ;;
     if failed then throw (Error (JStr "Could not get tunnel info"))
     else
       data <- lift (get (JObj fields) "data") ;;
       tunnel <- lift (get_first data) ;;
       v <- lift (get tunnel "address_public") ;;
       has_port <- lift (includes_colon v) ;;
       if negb has_port then throw (Error (JStr "Could not get assigned port"))
       else
         v <- lift (get tunnel "address_public") ;;
         assign this (with_address_public v))
      (after_fetch (build_request l (TunnelInfo (id t)) "GET" None) w).
Proof.
  intros Hlive Hc Hid Hver Hvalid Hok Hd.
  unfold updatePublicURLPort. unfold bind at 1.
  rewrite (get_tunnel_live this t w Hlive), Hid. cbn [negb].
  unfold bind at 1.
  rewrite (request_run daemon (lokal t) l (TunnelInfo (id t)) "GET" None None w Hc
             (snapshot_None w)).
  cbv zeta. rewrite Hd. unfold read_response.
  cbn [server_version json]. rewrite Hvalid, Hok.
  destruct (String.eqb_spec ver "") as [E | _]; [contradiction |]. reflexivity.
Qed.

(** C3 (amended).  On a handle whose public address is a non-empty
    string without ':' and whose type is not HTTP, [getPublicAddress()]
    never returns an address: it runs the refresh once and fails.
    Without an id the refresh sends nothing and the failure is its
    ["Tunnel ID is not set"]; with an id, exactly one GET for the
    tunnel-info path of that id goes out.  The failure is the
    not-yet-assigned error when the refresh went through (the answer
    says success and its first entry has a public address with a ':',
    which the handle now holds); when the refresh fails, its own error
    is the one raised: ["Could not get tunnel info"] on an answer that
    does not say success, ["Could not get assigned port"] when the
    address still has no ':'. *)
Theorem getPublicAddress_pending (this : loc) (t : Tunnel) (l : Lokal) (a : string)
    (w : World) :
  tunnels w !! this = Some t ->
  clients w !! lokal t = Some l ->
  address_public t = JStr a ->
  a <> "" ->
  includes ":" a = false ->
  is_not_HTTP (tunnel_type t) = true ->
  let rq := build_request l (TunnelInfo (id t)) "GET" None in
  (truthy (id t) = false ->
     getPublicAddress daemon this w = (Throw (Error (JStr "Tunnel ID is not set")), w))
  /\ (truthy (id t) = true ->
      (exists e w',
          getPublicAddress daemon this w = (Throw e, w')
          /\ sent w' = (sent w ++ [rq])%list
          /\ rq_method rq = "GET" /\ rq_endpoint rq = TunnelInfo (id t)
          /\ clients w' = clients w
          /\ (forall h, h <> this -> tunnels w' !! h = tunnels w !! h))
      /\ (forall ver st fields,
            ver <> "" -> isValidVersion ver = true ->
            ok (mkResponse st (Some ver) (Some (JObj fields))) = true ->
            daemon (sent w) rq
            = Responded (mkResponse st (Some ver) (Some (JObj fields))) ->
            (forall entry rest p,
                truthy (assoc "success" fields) = true ->
                assoc "data" fields = JArr (JObj entry :: rest) ->
                assoc "address_public" entry = JStr p ->
                (includes ":" p = true ->
                 getPublicAddress daemon this w
                 = (Throw not_yet_assigned,
                    mkWorld (clients w)
                      (<[this := with_address_public (JStr p) t]> (tunnels w))
                      (sent w ++ [rq]) (console w)))
                /\ (includes ":" p = false ->
                    getPublicAddress daemon this w
                    = (Throw (Error (JStr "Could not get assigned port")),
                       after_fetch rq w)))
            /\ (truthy (assoc "success" fields) = false ->
                getPublicAddress daemon this w
                = (Throw (Error (JStr "Could not get tunnel info")),
                   after_fetch rq w)))).
Proof.
  intros Hlive Hc Ha Hne Hcolon Htype rq.
  pose proof (getPublicAddress_pending_run this t a w Hlive Ha Hne Hcolon Htype) as Hrun.
  split.
  - intros Hid. rewrite Hrun. unfold bind at 1.
    unfold updatePublicURLPort. unfold bind at 1.
    rewrite (get_tunnel_live this t w Hlive), Hid. reflexivity.
  - intros Hid. split.
    + destruct (updatePublicURLPort_run this t l w Hlive Hc Hid)
        as (o & w' & Hup & Hnd & Hsent & Hcl & Hfr).
      rewrite Hrun. unfold bind. rewrite Hup.
      destruct o as [[] | e |]; [| | contradiction].
      * exists not_yet_assigned, w'. repeat split; assumption.
      * exists e, w'. repeat split; assumption.
    + intros ver st fields Hver Hvalid Hok Hd.
      pose proof (refresh_run this t l w ver st fields Hlive Hc Hid Hver Hvalid Hok Hd)
        as Hup. fold rq in Hup.
      assert (Hlive1 : tunnels (after_fetch rq w) !! this = Some t) by exact Hlive.
      split.
      * intros entry rest p Hsuccess Hdata Hp.
        destruct (array_length_nonzero (JObj entry) rest) as (len & Hlen & Hz).
        split; intros Hport; rewrite Hrun; unfold bind at 1; rewrite Hup;
          unfold no_result, bind, lift, ret, throw;
          rewrite !get_object, Hsuccess, Hdata, Hlen, Hz;
          cbn [negb get_first]; rewrite !get_object, Hp;
          cbn [includes_colon]; rewrite Hport; cbn [negb].
        -- rewrite (assign_live this t _ _ Hlive1). reflexivity.
        -- reflexivity.
      * intros Hsuccess. rewrite Hrun. unfold bind at 1. rewrite Hup.
        unfold no_result, bind, lift, ret, throw.
        rewrite !get_object, Hsuccess. reflexivity.
Qed.

End Handles.

Lemma create_requires_address_witness :
  create unreachable 1%positive fresh_world
  = (Throw (Error (JStr "Please enable either LAN address or random/custom public URL")),
     fresh_world).
Proof.
  exact (proj1 (create_requires_address unreachable 1%positive
                  (blank_tunnel 1%positive) fresh_world eq_refl eq_refl eq_refl)).
Defined.

Lemma create_outcome_witness :
  exists t2 w2,
    create (answering (Some "0.6.0") created_body) 1%positive
      (world_with configured_tunnel) = (Return 1%positive, w2)
    /\ tunnels w2 !! 1%positive = Some t2
    /\ id t2 = JStr "abc"
    /\ address_public t2 = JStr "my-app.example.com"
    /\ address_mdns t2 = JStr "my-app".
Proof.
  destruct (create_outcome (answering (Some "0.6.0") created_body) 1%positive
              configured_tunnel (world_with configured_tunnel)
              [("success", JBool true);
               ("data", JArr [JObj [("id", JStr "abc");
                                    ("address_public", JStr "my-app.example.com");
                                    ("address_mdns", JStr "my-app")]])]
              (after_fetch (build_request (mkLokal defaultBaseURL None None) TunnelStart
                              "POST" (Some configured_tunnel))
                 (world_with configured_tunnel))
              eq_refl eq_refl eq_refl) as [Hok _].
  destruct (Hok _ _ eq_refl eq_refl)
    as (t2 & w2 & Hcreate & Htun & Hpub & Hmdns & Hid & _).
  exists t2, w2. split; [exact Hcreate |].
  split; [rewrite Htun; apply lookup_insert_eq |].
  split; [exact Hid |]. split; [exact Hpub | exact Hmdns].
Defined.

Lemma getPublicAddress_pending_witness :
  getPublicAddress (answering (Some "0.6.0") (info_body "1.2.3.4:5000")) 1%positive
    (world_with (pending_tunnel (JStr "abc")))
  = (Throw not_yet_assigned,
     mkWorld (clients (world_with (pending_tunnel (JStr "abc"))))
       (<[1%positive := with_address_public (JStr "1.2.3.4:5000")
                          (pending_tunnel (JStr "abc"))]>
          (tunnels (world_with (pending_tunnel (JStr "abc")))))
       [build_request (mkLokal defaultBaseURL None None) (TunnelInfo (JStr "abc"))
          "GET" None]
       []).
Proof.
  destruct (getPublicAddress_pending
              (answering (Some "0.6.0") (info_body "1.2.3.4:5000")) 1%positive
              (pending_tunnel (JStr "abc")) (mkLokal defaultBaseURL None None)
              "1.2.3.4" (world_with (pending_tunnel (JStr "abc")))
              eq_refl eq_refl eq_refl) as [_ H].
  - discriminate.
  - reflexivity.
  - reflexivity.
  - destruct (H eq_refl) as [_ Hcases].
    destruct (Hcases "0.6.0" 200%N
                [("success", JBool true);
                 ("data", JArr [JObj [("id", JStr "abc");
                                      ("address_public", JStr "1.2.3.4:5000")]])]
                ltac:(discriminate) eq_refl eq_refl eq_refl)
      as [Hentry _].
    destruct (Hentry _ _ "1.2.3.4:5000" eq_refl eq_refl eq_refl) as [Hport _].
    exact (Hport eq_refl).
Defined.

(** C3, as first stated, fails when the refresh fails.  A TCP handle
    with the public address ["1.2.3.4"] and no id: nothing is sent and
    the error is ["Tunnel ID is not set"].  The same handle with an id,
    the daemon answering without success: one GET goes out and the
    error is ["Could not get tunnel info"].  Neither is the
    not-yet-assigned error. *)
Lemma getPublicAddress_refresh_fails :
  address_public (pending_tunnel JUndefined) = JStr "1.2.3.4"
  /\ tunnel_type (pending_tunnel JUndefined) = JStr "TCP"
  /\ getPublicAddress unreachable 1%positive (world_with (pending_tunnel JUndefined))
     = (Throw (Error (JStr "Tunnel ID is not set")),
        world_with (pending_tunnel JUndefined))
  /\ sent (world_with (pending_tunnel JUndefined)) = []
  /\ Error (JStr "Tunnel ID is not set") <> not_yet_assigned
  /\ getPublicAddress (answering (Some "0.6.0") (JObj [("success", JBool false)]))
       1%positive (world_with (pending_tunnel (JStr "abc")))
     = (Throw (Error (JStr "Could not get tunnel info")),
        after_fetch
          (build_request (mkLokal defaultBaseURL None None) (TunnelInfo (JStr "abc"))
             "GET" None)
          (world_with (pending_tunnel (JStr "abc"))))
  /\ Error (JStr "Could not get tunnel info") <> not_yet_assigned.
Proof.
  split; [reflexivity |]. split; [reflexivity |]. split; [reflexivity |].
  split; [reflexivity |]. split; [discriminate |]. split; [reflexivity | discriminate].
Qed.

(** ** The README sessions *)

Example readme_session_runs :
  exists w,
    readme_session (answering (Some "0.6.0") created_body) empty_world
    = (Return (JStr "my-app.example.com"), w)
    /\ List.length (sent w) = 1%nat
    /\ console w
       = [CBanner; CBlank;
          CField "Minimum Lokal Client" tab (JStr "0.6.0");
          CField "Public Address" (tab ++ tab ++ "https://") (JStr "my-app.example.com");
          CField "LAN Address" (tab ++ tab ++ "https://") (JStr "my-app");
          CBlank].
Proof. eexists. vm_compute. repeat split; reflexivity. Qed.

Example readme_lan_session_runs :
  fst (readme_lan_session (answering (Some "0.6.0") created_body) empty_world)
  = Return (JStr "my-app.local").
Proof. vm_compute. reflexivity. Qed.

Example readme_session_without_daemon :
  exists what w,
    readme_session unreachable empty_world = (Throw (TypeError what), w)
    /\ console w = [CError no_client_hint (TypeError "fetch failed")].
Proof. eexists. eexists. vm_compute. split; reflexivity. Qed.

(** * More of the client *)

(** ** The version gate beyond three components *)

Lemma split_nonempty sep s : split sep s <> [].
Proof.
  destruct s as [| c r]; simpl; [discriminate |].
  destruct (Ascii.eqb c sep); [discriminate |].
  destruct (split sep r); discriminate.
Qed.

Lemma split_append sep a r :
  split sep (a ++ String sep r) = (split sep a ++ split sep r)%list.
Proof.
  induction a as [| c a IH].
  - simpl. rewrite Ascii.eqb_refl. reflexivity.
  - change (String c a ++ String sep r) with (String c (a ++ String sep r)).
    simpl. rewrite IH.
    destruct (Ascii.eqb c sep); [reflexivity |].
    destruct (split sep a) eqn:E; [| reflexivity].
    exfalso. exact (split_nonempty _ _ E).
Qed.

(** X1.  Only the first three components of a version are looked at:
    whatever follows a version of three components or more, after one
    more dot, changes nothing to the check. *)
Theorem isValidVersion_extra_components (v extra : string) :
  (3 <= List.length (split "." v))%nat ->
  isValidVersion (v ++ "." ++ extra) = isValidVersion v.
Proof.
  intros Hlen. rewrite !isValidVersion_unfold.
  change ("." ++ extra) with (String "." extra).
  rewrite split_append, map_app. cbv zeta.
  destruct (split "." v) as [| a [| b [| c rest]]]; simpl in Hlen; try lia.
  reflexivity.
Qed.

Lemma isValidVersion_extra_components_witness :
  isValidVersion "0.6.0.beta" = isValidVersion "0.6.0".
Proof.
  apply (isValidVersion_extra_components "0.6.0" "beta"). simpl. lia.
Defined.

Lemma gt_NaN_l x : gt NaN x = false.
Proof. destruct x; reflexivity. Qed.

Lemma lt_NaN_l x : lt NaN x = false.
Proof. reflexivity. Qed.

(** X2.  A component that is not numeric, or is missing, is passed over
    as if it were equal to the minimum's: with such a major the check is
    decided by the minor and the patch alone, and with such a minor
    under a major equal to 0 by the patch alone. *)
Theorem isValidVersion_passes_over_NaN (v : string) :
  let parts := map Number (split "." v) in
  let major := ToNumber (parts !! 0%nat) in
  let minor := ToNumber (parts !! 1%nat) in
  let patch := ToNumber (parts !! 2%nat) in
  (is_nan major = true ->
   isValidVersion v
   = if gt minor six then true else if lt minor six then false else ge patch zero)
  /\ (is_nan minor = true ->
      isValidVersion v
      = if gt major zero then true else if lt major zero then false
        else ge patch zero).
Proof.
  intros parts major minor patch. rewrite isValidVersion_unfold.
  subst patch minor major parts. cbv zeta.
  split; intros H; apply is_nan_eq in H; rewrite H, gt_NaN_l, lt_NaN_l; reflexivity.
Qed.

(** ** What [request] sends and gives back *)

Set Warnings "-clear-no-such-hyp".

(** X3.  The request built for [fetch] goes to the client's base URL
    with the given path, method and body.  It always carries the
    User-Agent and Content-Type headers; it carries X-Auth-Token exactly
    when the client has a non-empty token, and Authorization exactly
    when it has basic-auth credentials, both at once when both are
    set. *)
Theorem build_request_headers (l : Lokal) (endpoint : Endpoint) (method : string)
    (payload : option Tunnel) :
  let rq := build_request l endpoint method payload in
  rq_base rq = baseURL l /\ rq_endpoint rq = endpoint
  /\ rq_method rq = method /\ rq_body rq = payload
  /\ In ("User-Agent", HText "Lokal TS - github.com/lokal-so/lokal-ts") (rq_headers rq)
  /\ In ("Content-Type", HText "application/json") (rq_headers rq)
  /\ (forall v, In ("X-Auth-Token", v) (rq_headers rq)
                <-> exists tok, token l = Some tok /\ tok <> "" /\ v = HText tok)
  /\ (forall v, In ("Authorization", v) (rq_headers rq)
                <-> exists u p, basicAuth l = Some (u, p) /\ v = HBasic u p).
Proof.
  destruct l as [base auth tok]. unfold build_request. cbn [baseURL basicAuth token].
  cbv zeta. cbn [rq_base rq_endpoint rq_method rq_body rq_headers].
  repeat (split; [reflexivity |]).
  destruct tok as [tok |]; [destruct (String.eqb_spec tok "") as [-> | Hne] |];
    destruct auth as [[u p] |]; cbn [app In];
    (split; [tauto |]); (split; [tauto |]); split; intros v; split;
    naive_solver.
Qed.

Section MoreRequests.

Variable daemon : list Request -> Request -> FetchOutcome.

(** X4.  With credentials that [btoa] encodes, as all strings here are,
    [request] calls [fetch] exactly once whatever comes back (a
    rejection, any status, any body), with the request built from the
    client and the body at that moment, and touches neither the clients
    nor the handles. *)
Theorem request_sends_once (c : loc) (l : Lokal) (endpoint : Endpoint)
    (method : string) (body : option loc) (payload : option Tunnel) (w : World) :
  clients w !! c = Some l ->
  snapshot body w = (Return payload, w) ->
  exists o w',
    request daemon c endpoint method body w = (o, w')
    /\ sent w' = (sent w ++ [build_request l endpoint method payload])%list
    /\ clients w' = clients w
    /\ tunnels w' = tunnels w.
Proof.
  intros Hc Hb.
  rewrite (request_run daemon c l endpoint method body payload w Hc Hb). cbv zeta.
  destruct (daemon (sent w) (build_request l endpoint method payload)) as [e | r].
  - eexists; eexists. split; [reflexivity |].
    destruct (instanceofError e); repeat split.
  - eexists; eexists. split; [reflexivity |]. repeat split.
Qed.

(** X5.  Once the version header has passed the gate: a body that is
    not JSON makes [request] fail with the parser's SyntaxError whatever
    the status; a status outside 200-299 makes it fail with the body's
    [message] when that is truthy and with ["An error occurred"]
    otherwise; a status within 200-299 returns the parsed body as it
    is. *)
Theorem request_after_gate (c : loc) (l : Lokal) (endpoint : Endpoint)
    (method : string) (body : option loc) (payload : option Tunnel) (w : World)
    (st : N) (ver : string) (js : option JsVal) :
  clients w !! c = Some l ->
  snapshot body w = (Return payload, w) ->
  ver <> "" -> isValidVersion ver = true ->
  daemon (sent w) (build_request l endpoint method payload)
  = Responded (mkResponse st (Some ver) js) ->
  let w' := after_fetch (build_request l endpoint method payload) w in
  (js = None -> request daemon c endpoint method body w = (Throw SyntaxError, w'))
  /\ (forall d, js = Some d -> (200 <= st <= 299)%N ->
        request daemon c endpoint method body w = (Return d, w'))
  /\ (forall fields, js = Some (JObj fields) -> ((st < 200)%N \/ (299 < st)%N) ->
        request daemon c endpoint method body w
        = (Throw (Error (if truthy (assoc "message" fields)
                         then assoc "message" fields
                         else JStr "An error occurred")), w')).
Proof.
  intros Hc Hb Hver Hvalid Hd w'.
  rewrite (request_run daemon c l endpoint method body payload w Hc Hb). cbv zeta.
  rewrite Hd. unfold read_response. cbn [server_version json].
  rewrite Hvalid. destruct (String.eqb_spec ver "") as [E | _]; [contradiction |].
  cbn [orb negb]. unfold ok. cbn [status].
  split; [intros ->; reflexivity |]. split.
  - intros d -> [H1 H2].
    rewrite (proj2 (N.leb_le 200 st) H1), (proj2 (N.leb_le st 299) H2). reflexivity.
  - intros fields -> H.
    assert (E : ((200 <=? st) && (st <=? 299))%N = false).
    { destruct H as [H | H].
      - rewrite (proj2 (N.leb_gt 200 st) H). reflexivity.
      - rewrite (proj2 (N.leb_gt st 299) H). apply andb_false_r. }
    rewrite E. reflexivity.
Qed.

End MoreRequests.

Lemma request_sends_once_witness :
  exists o w',
    request unreachable 1%positive TunnelStart "POST" (Some 1%positive) fresh_world
    = (o, w')
    /\ sent w' = [build_request (mkLokal defaultBaseURL None None) TunnelStart "POST"
                    (Some (blank_tunnel 1%positive))].
Proof.
  destruct (request_sends_once unreachable 1%positive (mkLokal defaultBaseURL None None)
              TunnelStart "POST" (Some 1%positive) (Some (blank_tunnel 1%positive))
              fresh_world eq_refl eq_refl) as (o & w' & H & Hs & _).
  exists o, w'. split; [exact H | exact Hs].
Defined.

Lemma request_after_gate_witness :
  request (fun _ _ => Responded (mkResponse 404 (Some "0.6.0")
                                   (Some (JObj [("message", JStr "no such tunnel")]))))
    1%positive (TunnelInfo (JStr "abc")) "GET" None fresh_world
  = (Throw (Error (JStr "no such tunnel")),
     after_fetch (build_request (mkLokal defaultBaseURL None None)
                    (TunnelInfo (JStr "abc")) "GET" None) fresh_world).
Proof.
  destruct (request_after_gate
              (fun _ _ => Responded (mkResponse 404 (Some "0.6.0")
                                       (Some (JObj [("message", JStr "no such tunnel")]))))
              1%positive (mkLokal defaultBaseURL None None) (TunnelInfo (JStr "abc"))
              "GET" None None fresh_world 404%N "0.6.0"
              (Some (JObj [("message", JStr "no such tunnel")]))
              eq_refl eq_refl ltac:(discriminate) eq_refl eq_refl) as (_ & _ & H).
  apply (H [("message", JStr "no such tunnel")] eq_refl). right. reflexivity.
Defined.

(** ** Configuring the client *)

Lemma setBaseURL_run c l url w :
  clients w !! c = Some l ->
  setBaseURL c url w
  = (Return c,
     mkWorld (<[c := mkLokal url (basicAuth l) (token l)]> (clients w))
             (tunnels w) (sent w) (console w)).
Proof.
  intros H. unfold setBaseURL, bind. rewrite (get_client_live c l w H). reflexivity.
Qed.

Lemma setBasicAuth_run c l username password w :
  clients w !! c = Some l ->
  setBasicAuth c username password w
  = (Return c,
     mkWorld (<[c := mkLokal (baseURL l) (Some (username, password)) (token l)]>
                (clients w))
             (tunnels w) (sent w) (console w)).
Proof.
  intros H. unfold setBasicAuth, bind. rewrite (get_client_live c l w H). reflexivity.
Qed.

Lemma setAPIToken_run c l tok w :
  clients w !! c = Some l ->
  setAPIToken c tok w
  = (Return c,
     mkWorld (<[c := mkLokal (baseURL l) (basicAuth l) (Some tok)]> (clients w))
             (tunnels w) (sent w) (console w)).
Proof.
  intros H. unfold setAPIToken, bind. rewrite (get_client_live c l w H). reflexivity.
Qed.

(** X6.  [setBaseURL], [setBasicAuth] and [setAPIToken] return the
    client they were called on and leave handles, sent requests and
    console as they were; called one after the other, in either order,
    they leave the client with the three values given, and no other
    client changed. *)
Theorem client_setters_compose (c : loc) (l : Lokal) (w : World)
    (url username password tok : string) :
  clients w !! c = Some l ->
  let configured :=
    mkWorld (<[c := mkLokal url (Some (username, password)) (Some tok)]> (clients w))
            (tunnels w) (sent w) (console w) in
  (setBaseURL c url ;;; setBasicAuth c username password ;;; setAPIToken c tok) w
  = (Return c, configured)
  /\ (setAPIToken c tok ;;; setBasicAuth c username password ;;; setBaseURL c url) w
     = (Return c, configured)
  /\ (forall c', c' <> c -> clients configured !! c' = clients w !! c').
Proof.
  intros Hc configured. split; [| split].
  - unfold bind.
    rewrite (setBaseURL_run c l url w Hc).
    rewrite (setBasicAuth_run c (mkLokal url (basicAuth l) (token l)))
      by apply lookup_insert_eq.
    rewrite (setAPIToken_run c (mkLokal url (Some (username, password)) (token l)))
      by apply lookup_insert_eq.
    unfold configured. simpl. rewrite !insert_insert_eq. reflexivity.
  - unfold bind.
    rewrite (setAPIToken_run c l tok w Hc).
    rewrite (setBasicAuth_run c (mkLokal (baseURL l) (basicAuth l) (Some tok)))
      by apply lookup_insert_eq.
    rewrite (setBaseURL_run c (mkLokal (baseURL l) (Some (username, password))
                                 (Some tok)))
      by apply lookup_insert_eq.
    unfold configured. simpl. rewrite !insert_insert_eq. reflexivity.
  - intros c' Hne. unfold configured. simpl. apply lookup_insert_ne. congruence.
Qed.

Lemma client_setters_compose_witness :
  (setBaseURL 1%positive "http://10.0.0.2:6174" ;;;
   setBasicAuth 1%positive "admin" "secret" ;;;
   setAPIToken 1%positive "t0k") fresh_world
  = (Return 1%positive,
     mkWorld (<[1%positive := mkLokal "http://10.0.0.2:6174" (Some ("admin", "secret"))
                                (Some "t0k")]> (clients fresh_world))
             (tunnels fresh_world) (sent fresh_world) (console fresh_world)).
Proof.
  exact (proj1 (client_setters_compose 1%positive (mkLokal defaultBaseURL None None)
                  fresh_world "http://10.0.0.2:6174" "admin" "secret" "t0k" eq_refl)).
Defined.

(** ** More on handles *)

Section MoreHandles.

Variable daemon : list Request -> Request -> FetchOutcome.

Ltac get_cases :=
  repeat match goal with
         | |- context [match get ?v ?k with _ => _ end] =>
             let E := fresh "E" in
             destruct (get v k) eqn:E; [ | | exfalso; exact (get_total _ _ E)]
         | |- context [match get_first ?v with _ => _ end] =>
             let E := fresh "E" in
             destruct (get_first v) eqn:E; [ | | exfalso; exact (get_first_total _ E)]
         | |- context [if ?b then _ else _] => destruct b eqn:?
         end.

Lemma create_unfold h t w :
  tunnels w !! h = Some t ->
  truthy (address_mdns t) || truthy (address_public t) = true ->
  create daemon h w
  = (response <- request daemon (lokal t) TunnelStart "POST" (Some h) ;;
     failed <- no_result response ;;
     if failed then
       message <- lift (get response "message") ;;
       throw (Error (js_or message (JStr "Tunnel creation failing")))
     else
       data <- lift (get response "data") ;;
       tunnel <- lift (get_first data) ;;
       v <- lift (get tunnel "address_public") ;;
       assign h (with_address_public v) ;;;
       v <- lift (get tunnel "address_mdns") ;;
       assign h (with_address_mdns v) ;;;
       v <- lift (get tunnel "id") ;;
       assign h (with_id v) ;;;
       t' <- get_tunnel h ;;
       (if startupBannerFlag t' then showBanner h else ret tt) ;;;
       ret h) w.
Proof.
  intros Hlive Haddr. unfold create at 1. unfold bind at 1.
  rewrite (get_tunnel_live h t w Hlive).
  destruct (truthy (address_mdns t)), (truthy (address_public t));
    try discriminate Haddr; reflexivity.
Qed.

(** What [create] does, whatever the daemon does. *)
Lemma create_cases h t l w :
  tunnels w !! h = Some t ->
  clients w !! lokal t = Some l ->
  truthy (address_mdns t) || truthy (address_public t) = true ->
  exists o w',
    create daemon h w = (o, w')
    /\ sent w' = (sent w ++ [build_request l TunnelStart "POST" (Some t)])%list
    /\ clients w' = clients w
    /\ (forall h', h' <> h -> tunnels w' !! h' = tunnels w !! h')
    /\ (o = Return h \/ exists e, o = Throw e /\ tunnels w' = tunnels w).
Proof.
  intros Hlive Hc Haddr. rewrite (create_unfold h t w Hlive Haddr).
  match goal with
  | |- context [bind (request _ _ _ _ _) ?K] => set (tail := K)
  end.
  set (rq := build_request l TunnelStart "POST" (Some t)).
  assert (Htail : forall response w1,
            tunnels w1 = tunnels w -> clients w1 = clients w ->
            sent w1 = (sent w ++ [rq])%list ->
            exists o w',
              tail response w1 = (o, w')
              /\ sent w' = (sent w ++ [rq])%list
              /\ clients w' = clients w
              /\ (forall h', h' <> h -> tunnels w' !! h' = tunnels w !! h')
              /\ (o = Return h \/ exists e, o = Throw e /\ tunnels w' = tunnels w)).
  { intros response w1 Ht1 Hc1 Hs1.
    assert (Hlive1 : tunnels w1 !! h = Some t) by (rewrite Ht1; exact Hlive).
    unfold tail, no_result, bind, lift, ret, throw.
    get_cases;
      try (eexists; eexists; split; [reflexivity |];
           split; [exact Hs1 |]; split; [exact Hc1 |];
           split; [intros h' _; rewrite Ht1; reflexivity |];
           right; eexists; split; [reflexivity | exact Ht1]).
    all: try match goal with
             | E1 : get ?v _ = Return _, E2 : get ?v _ = Throw _ |- _ =>
                 exfalso; destruct v; simpl in E1, E2; congruence
             end.
    all: rewrite (assign_live _ _ _ _ Hlive1); cbv beta iota.
    all: do 2 match goal with
              | |- context [assign ?x ?u (mkWorld ?c ?m ?s ?k)] =>
                  rewrite (assign_live x _ u (mkWorld c m s k))
                    by apply lookup_insert_eq;
                  cbv beta iota
              end.
    all: match goal with
         | |- context [get_tunnel ?x (mkWorld ?c ?m ?s ?k)] =>
             rewrite (get_tunnel_live x _ (mkWorld c m s k)) by apply lookup_insert_eq;
             cbv beta iota
         end.
    all: match goal with
         | |- context [if startupBannerFlag ?t3 then _ else _] =>
             destruct (startupBannerFlag t3);
             [ match goal with
               | |- context [showBanner ?x ?wc] =>
                   destruct (showBanner_frame x t3 wc) as (wb & -> & Hcb & Htb & Hsb);
                   [apply lookup_insert_eq |]
               end | ]
         end.
    all: eexists; eexists; split; [reflexivity |].
    all: try (rewrite Hcb, Hsb, Htb).
    all: simpl; split; [exact Hs1 |]; split; [exact Hc1 |].
    all: split; [| left; reflexivity].
    all: intros h' Hne; rewrite !lookup_insert_ne by congruence.
    all: rewrite Ht1; reflexivity. }
  unfold bind at 1.
  rewrite (request_run daemon (lokal t) l TunnelStart "POST" (Some h) (Some t) w Hc
             (snapshot_live h t w Hlive)).
  cbv zeta. fold rq.
  destruct (daemon (sent w) rq) as [e | r].
  - apply Htail; destruct (instanceofError e); reflexivity.
  - destruct (read_response r) as [response | e |] eqn:Hr.
    + apply Htail; reflexivity.
    + eexists; eexists. split; [reflexivity |]. split; [reflexivity |].
      split; [reflexivity |]. split; [reflexivity |].
      right. eexists. split; reflexivity.
    + exfalso. exact (read_response_total r Hr).
Qed.

(** X7.  [create()] is all or nothing.  Once the handle has an address,
    it either returns the handle or fails with the handle's fields as
    they were: no failure leaves the handle half assigned.  Other
    handles and the clients are never touched.  With credentials that
    [btoa] encodes, as all strings here are, exactly one POST goes to
    the tunnel-start path on each of these paths, its body the handle's
    fields at that moment. *)
Theorem create_all_or_nothing (h : loc) (t : Tunnel) (l : Lokal) (w : World) :
  tunnels w !! h = Some t ->
  clients w !! lokal t = Some l ->
  truthy (address_mdns t) || truthy (address_public t) = true ->
  exists o w',
    create daemon h w = (o, w')
    /\ sent w' = (sent w ++ [build_request l TunnelStart "POST" (Some t)])%list
    /\ clients w' = clients w
    /\ (forall h', h' <> h -> tunnels w' !! h' = tunnels w !! h')
    /\ (o = Return h \/ exists e, o = Throw e /\ tunnels w' = tunnels w).
Proof. exact (create_cases h t l w). Qed.

(** X8.  When [fetch] rejects, the catch block of [request] raises
    nothing: it logs the hint, for an Error instance, and [request]
    returns [undefined].  [create()] then reads [success] off that
    [undefined], and this read is what throws: a TypeError, not the
    "Tunnel creation failing" error.  The POST has gone out, the handle
    is as it was, and the console has the hint and nothing else. *)
Theorem create_transport_failure (h : loc) (t : Tunnel) (l : Lokal) (w : World)
    (e : Exn) :
  tunnels w !! h = Some t ->
  clients w !! lokal t = Some l ->
  truthy (address_mdns t) || truthy (address_public t) = true ->
  daemon (sent w) (build_request l TunnelStart "POST" (Some t)) = Rejected e ->
  exists what w',
    request daemon (lokal t) TunnelStart "POST" (Some h) w = (Return JUndefined, w')
    /\ get JUndefined "success" = Throw (TypeError what)
    /\ create daemon h w = (Throw (TypeError what), w')
    /\ tunnels w' = tunnels w
    /\ clients w' = clients w
    /\ sent w' = (sent w ++ [build_request l TunnelStart "POST" (Some t)])%list
    /\ console w'
       = (console w ++ if instanceofError e then [CError no_client_hint e] else [])%list.
Proof.
  intros Hlive Hc Haddr Hd. rewrite (create_unfold h t w Hlive Haddr).
  unfold bind at 1.
  rewrite (request_run daemon (lokal t) l TunnelStart "POST" (Some h) (Some t) w Hc
             (snapshot_live h t w Hlive)).
  cbv zeta. rewrite Hd. unfold no_result, bind, lift. cbn [get].
  eexists; eexists. split; [reflexivity |]. split; [reflexivity |].
  split; [reflexivity |].
  destruct (instanceofError e); cbn [after_log after_fetch tunnels clients sent console];
    rewrite ?app_nil_r; repeat split.
Qed.

Lemma showBanner_lines h t w :
  tunnels w !! h = Some t ->
  showBanner h w
  = (Return tt,
     mkWorld (clients w) (tunnels w) (sent w)
       (console w
        ++ [CBanner; CBlank; CField "Minimum Lokal Client" tab (JStr ServerMinVersion)]
        ++ (if truthy (address_public t)
            then [CField "Public Address" (tab ++ tab ++ "https://") (address_public t)]
            else [])
        ++ (if truthy (address_mdns t)
            then [CField "LAN Address" (tab ++ tab ++ "https://") (address_mdns t)]
            else [])
        ++ [CBlank])%list).
Proof.
  intros Hlive. unfold showBanner, bind.
  rewrite (get_tunnel_live h t w Hlive). unfold console_log, ret, after_log.
  destruct (truthy (address_public t)), (truthy (address_mdns t)); simpl;
    rewrite <- ?app_assoc; reflexivity.
Qed.

(** [create] on an answer that says success and starts with an entry
    object. *)
Lemma create_success_run h t l w st ver fields entry rest :
  tunnels w !! h = Some t ->
  clients w !! lokal t = Some l ->
  truthy (address_mdns t) || truthy (address_public t) = true ->
  ver <> "" -> isValidVersion ver = true -> (200 <= st <= 299)%N ->
  daemon (sent w) (build_request l TunnelStart "POST" (Some t))
  = Responded (mkResponse st (Some ver) (Some (JObj fields))) ->
  truthy (assoc "success" fields) = true ->
  assoc "data" fields = JArr (JObj entry :: rest) ->
  let t' := with_id (assoc "id" entry)
              (with_address_mdns (assoc "address_mdns" entry)
                 (with_address_public (assoc "address_public" entry) t)) in
  create daemon h w
  = (Return h,
     mkWorld (clients w) (<[h := t']> (tunnels w))
       (sent w ++ [build_request l TunnelStart "POST" (Some t)])
       (if startupBannerFlag t
        then (console w
              ++ [CBanner; CBlank;
                  CField "Minimum Lokal Client" tab (JStr ServerMinVersion)]
              ++ (if truthy (assoc "address_public" entry)
                  then [CField "Public Address" (tab ++ tab ++ "https://")
                          (assoc "address_public" entry)]
                  else [])
              ++ (if truthy (assoc "address_mdns" entry)
                  then [CField "LAN Address" (tab ++ tab ++ "https://")
                          (assoc "address_mdns" entry)]
                  else [])
              ++ [CBlank])%list
        else console w)).
Proof.
  intros Hlive Hc Haddr Hver Hvalid [Hlo Hhi] Hd Hsuccess Hdata t'.
  rewrite (create_unfold h t w Hlive Haddr). unfold bind at 1.
  rewrite (request_run daemon (lokal t) l TunnelStart "POST" (Some h) (Some t) w Hc
             (snapshot_live h t w Hlive)).
  cbv zeta. rewrite Hd. unfold read_response. cbn [server_version json].
  rewrite Hvalid. destruct (String.eqb_spec ver "") as [E | _]; [contradiction |].
  unfold ok. cbn [status orb negb].
  rewrite (proj2 (N.leb_le 200 st) Hlo), (proj2 (N.leb_le st 299) Hhi). cbn [andb negb].
  unfold no_result, bind, lift, ret. rewrite !get_object, Hsuccess, Hdata.
  destruct (array_length_nonzero (JObj entry) rest) as (len & -> & ->).
  cbn [negb get_first]. rewrite !get_object.
  set (rq := build_request l TunnelStart "POST" (Some t)).
  rewrite (assign_live h t _ (after_fetch rq w) Hlive). cbv beta iota.
  do 2 match goal with
       | |- context [assign ?x ?u (mkWorld ?c ?m ?s ?k)] =>
           rewrite (assign_live x _ u (mkWorld c m s k)) by apply lookup_insert_eq;
           cbv beta iota
       end.
  match goal with
  | |- context [get_tunnel ?x (mkWorld ?c ?m ?s ?k)] =>
      rewrite (get_tunnel_live x _ (mkWorld c m s k)) by apply lookup_insert_eq;
      cbv beta iota
  end.
  fold t'. cbn [clients tunnels sent console after_fetch].
  rewrite !insert_insert_eq.
  change (startupBannerFlag t') with (startupBannerFlag t).
  destruct (startupBannerFlag t).
  - rewrite (showBanner_lines h t') by apply lookup_insert_eq. reflexivity.
  - reflexivity.
Qed.

(** X9.  The banner is printed only when [showStartupBanner] was called
    and [create()] went through, after the handle has taken the daemon's
    answer: the lines show the addresses of the answer's first entry
    (each only when truthy), not the ones asked for.  Without the flag
    [create()] prints nothing. *)
Theorem create_banner (h : loc) (t : Tunnel) (l : Lokal) (w : World) (st : N)
    (ver : string) (fields entry : list (string * JsVal)) (rest : list JsVal) :
  tunnels w !! h = Some t ->
  clients w !! lokal t = Some l ->
  truthy (address_mdns t) || truthy (address_public t) = true ->
  ver <> "" -> isValidVersion ver = true -> (200 <= st <= 299)%N ->
  daemon (sent w) (build_request l TunnelStart "POST" (Some t))
  = Responded (mkResponse st (Some ver) (Some (JObj fields))) ->
  truthy (assoc "success" fields) = true ->
  assoc "data" fields = JArr (JObj entry :: rest) ->
  exists w',
    create daemon h w = (Return h, w')
    /\ (startupBannerFlag t = false -> console w' = console w)
    /\ (startupBannerFlag t = true ->
        console w'
        = (console w
           ++ [CBanner; CBlank; CField "Minimum Lokal Client" tab (JStr "0.6.0")]
           ++ (if truthy (assoc "address_public" entry)
               then [CField "Public Address" (tab ++ tab ++ "https://")
                       (assoc "address_public" entry)]
               else [])
           ++ (if truthy (assoc "address_mdns" entry)
               then [CField "LAN Address" (tab ++ tab ++ "https://")
                       (assoc "address_mdns" entry)]
               else [])
           ++ [CBlank])%list).
Proof.
  intros Hlive Hc Haddr Hver Hvalid Hst Hd Hsuccess Hdata.
  rewrite (create_success_run h t l w st ver fields entry rest
             Hlive Hc Haddr Hver Hvalid Hst Hd Hsuccess Hdata).
  eexists. split; [reflexivity |].
  split; intros ->; reflexivity.
Qed.

(** X10.  After a [create()] that went through, [getLANAddress()]
    answers from the daemon's entry, whatever LAN address was set
    before: with a non-empty [address_mdns] string in the entry it
    returns it, ".local" appended unless already there; with none (or a
    falsy one) it fails as on a handle never given a LAN address. *)
Theorem create_then_getLANAddress (h : loc) (t : Tunnel) (l : Lokal) (w : World)
    (st : N) (ver : string) (fields entry : list (string * JsVal))
    (rest : list JsVal) :
  tunnels w !! h = Some t ->
  clients w !! lokal t = Some l ->
  truthy (address_mdns t) || truthy (address_public t) = true ->
  ver <> "" -> isValidVersion ver = true -> (200 <= st <= 299)%N ->
  daemon (sent w) (build_request l TunnelStart "POST" (Some t))
  = Responded (mkResponse st (Some ver) (Some (JObj fields))) ->
  truthy (assoc "success" fields) = true ->
  assoc "data" fields = JArr (JObj entry :: rest) ->
  exists w',
    create daemon h w = (Return h, w')
    /\ (truthy (assoc "address_mdns" entry) = false ->
        getLANAddress h w'
        = (Throw (Error (JStr "LAN address is not being set")), w'))
    /\ (forall m, assoc "address_mdns" entry = JStr m -> m <> "" ->
        getLANAddress h w'
        = (Return (JStr (if endsWith ".local" m then m else m ++ ".local")), w')).
Proof.
  intros Hlive Hc Haddr Hver Hvalid Hst Hd Hsuccess Hdata.
  rewrite (create_success_run h t l w st ver fields entry rest
             Hlive Hc Haddr Hver Hvalid Hst Hd Hsuccess Hdata).
  eexists. split; [reflexivity |].
  cbv zeta.
  set (t' := with_id (assoc "id" entry)
               (with_address_mdns (assoc "address_mdns" entry)
                  (with_address_public (assoc "address_public" entry) t))).
  set (w' := mkWorld _ _ _ _).
  assert (Hlive' : tunnels w' !! h = Some t') by apply lookup_insert_eq.
  split.
  - intros Hfalsy. unfold getLANAddress, bind.
    rewrite (get_tunnel_live h t' w' Hlive'). cbn [t' address_mdns with_id with_address_mdns].
    rewrite Hfalsy. reflexivity.
  - intros m Hm Hne.
    rewrite (getLANAddress_string h t' m w' Hlive') by exact Hm.
    destruct (String.eqb_spec m "") as [E | _]; [contradiction | reflexivity].
Qed.

End MoreHandles.

Lemma create_all_or_nothing_witness :
  exists o w',
    create unreachable 1%positive (world_with configured_tunnel) = (o, w')
    /\ sent w' = [build_request (mkLokal defaultBaseURL None None) TunnelStart "POST"
                    (Some configured_tunnel)]
    /\ (o = Return 1%positive
        \/ exists e, o = Throw e
                     /\ tunnels w' = tunnels (world_with configured_tunnel)).
Proof.
  destruct (create_all_or_nothing unreachable 1%positive configured_tunnel
              (mkLokal defaultBaseURL None None) (world_with configured_tunnel)
              eq_refl eq_refl eq_refl) as (o & w' & H & Hs & _ & _ & Ho).
  exists o, w'. split; [exact H |]. split; [exact Hs | exact Ho].
Defined.

Lemma create_transport_failure_witness :
  exists what w',
    request unreachable 1%positive TunnelStart "POST" (Some 1%positive)
      (world_with configured_tunnel) = (Return JUndefined, w')
    /\ create unreachable 1%positive (world_with configured_tunnel)
       = (Throw (TypeError what), w')
    /\ tunnels w' = tunnels (world_with configured_tunnel).
Proof.
  destruct (create_transport_failure unreachable 1%positive configured_tunnel
              (mkLokal defaultBaseURL None None) (world_with configured_tunnel)
              (TypeError "fetch failed") eq_refl eq_refl eq_refl eq_refl)
    as (what & w' & Hr & _ & H & Ht & _).
  exists what, w'. split; [exact Hr |]. split; [exact H | exact Ht].
Defined.

Lemma create_banner_witness :
  exists w',
    create (answering (Some "0.6.0") created_body) 1%positive
      (world_with (with_startupBannerFlag true configured_tunnel))
    = (Return 1%positive, w')
    /\ console w'
       = [CBanner; CBlank; CField "Minimum Lokal Client" tab (JStr "0.6.0");
          CField "Public Address" (tab ++ tab ++ "https://") (JStr "my-app.example.com");
          CField "LAN Address" (tab ++ tab ++ "https://") (JStr "my-app");
          CBlank].
Proof.
  destruct (create_banner (answering (Some "0.6.0") created_body) 1%positive
              (with_startupBannerFlag true configured_tunnel)
              (mkLokal defaultBaseURL None None)
              (world_with (with_startupBannerFlag true configured_tunnel))
              200%N "0.6.0"
              [("success", JBool true);
               ("data", JArr [JObj [("id", JStr "abc");
                                    ("address_public", JStr "my-app.example.com");
                                    ("address_mdns", JStr "my-app")]])]
              [("id", JStr "abc");
               ("address_public", JStr "my-app.example.com");
               ("address_mdns", JStr "my-app")] []
              eq_refl eq_refl eq_refl ltac:(discriminate) eq_refl
              ltac:(split; discriminate) eq_refl eq_refl eq_refl)
    as (w' & H & _ & Hlines).
  exists w'. split; [exact H | exact (Hlines eq_refl)].
Defined.

Lemma create_then_getLANAddress_witness :
  exists w',
    create (answering (Some "0.6.0") (info_body "my-app.example.com")) 1%positive
      (world_with (with_address_mdns (JStr "my-app") configured_tunnel))
    = (Return 1%positive, w')
    /\ getLANAddress 1%positive w'
       = (Throw (Error (JStr "LAN address is not being set")), w').
Proof.
  destruct (create_then_getLANAddress
              (answering (Some "0.6.0") (info_body "my-app.example.com")) 1%positive
              (with_address_mdns (JStr "my-app") configured_tunnel)
              (mkLokal defaultBaseURL None None)
              (world_with (with_address_mdns (JStr "my-app") configured_tunnel))
              200%N "0.6.0"
              [("success", JBool true);
               ("data", JArr [JObj [("id", JStr "abc");
                                    ("address_public", JStr "my-app.example.com")]])]
              [("id", JStr "abc"); ("address_public", JStr "my-app.example.com")] []
              eq_refl eq_refl eq_refl ltac:(discriminate) eq_refl
              ltac:(split; discriminate) eq_refl eq_refl eq_refl)
    as (w' & H & Hnone & _).
  exists w'. split; [exact H | exact (Hnone eq_refl)].
Defined.

(** ** New handles, and handles that share a client *)

(** X11.  [newTunnel()] returns a handle that no existing handle is: the
    handles there were are unchanged, the new one has the initial fields
    of the class and is bound to the client; a second [newTunnel()]
    gives yet another handle.  Straight from [newTunnel()], [create()]
    fails on the missing address without sending anything. *)
Theorem newTunnel_fresh (daemon : list Request -> Request -> FetchOutcome)
    (c : loc) (w : World) :
  exists h w',
    newTunnel c w = (Return h, w')
    /\ tunnels w !! h = None
    /\ tunnels w' !! h = Some (blank_tunnel c)
    /\ (forall h', h' <> h -> tunnels w' !! h' = tunnels w !! h')
    /\ clients w' = clients w /\ sent w' = sent w /\ console w' = console w
    /\ (exists h2 w2, newTunnel c w' = (Return h2, w2) /\ h2 <> h
                      /\ tunnels w2 !! h = Some (blank_tunnel c))
    /\ create daemon h w'
       = (Throw (Error (JStr "Please enable either LAN address or random/custom public URL")),
          w').
Proof.
  unfold newTunnel.
  set (h := fresh (dom (tunnels w))).
  assert (Hfresh : tunnels w !! h = None).
  { apply not_elem_of_dom. apply is_fresh. }
  eexists; eexists. split; [reflexivity |].
  split; [exact Hfresh |]. cbn [tunnels clients sent console].
  split; [apply lookup_insert_eq |].
  split; [intros h' Hne; apply lookup_insert_ne; congruence |].
  split; [reflexivity |]. split; [reflexivity |]. split; [reflexivity |].
  split.
  - set (h2 := fresh (dom (<[h := blank_tunnel c]> (tunnels w)))).
    assert (Hne : h2 <> h).
    { intros E.
      apply (is_fresh (dom (<[h := blank_tunnel c]> (tunnels w)))).
      fold h2. rewrite E. apply elem_of_dom. rewrite lookup_insert_eq. eauto. }
    eexists; eexists. split; [reflexivity |]. split; [exact Hne |].
    cbn [tunnels]. rewrite lookup_insert_ne by congruence. apply lookup_insert_eq.
  - unfold create, bind, get_tunnel. cbn [tunnels].
    rewrite lookup_insert_eq. reflexivity.
Qed.

(** X12.  A handle keeps a reference to its client, not a copy: when
    the client is given a new base URL after the handle was made, the
    request of [create()] goes to the new URL. *)
Theorem create_uses_current_client (daemon : list Request -> Request -> FetchOutcome)
    (h : loc) (t : Tunnel) (l : Lokal) (w : World) (url : string) :
  tunnels w !! h = Some t ->
  clients w !! lokal t = Some l ->
  truthy (address_mdns t) || truthy (address_public t) = true ->
  exists w1 o w2,
    setBaseURL (lokal t) url w = (Return (lokal t), w1)
    /\ create daemon h w1 = (o, w2)
    /\ sent w2
       = (sent w ++ [build_request (mkLokal url (basicAuth l) (token l)) TunnelStart
                       "POST" (Some t)])%list
    /\ (forall rq, In rq (sent w2) -> ~ In rq (sent w) -> rq_base rq = url).
Proof.
  intros Hlive Hc Haddr.
  rewrite (setBaseURL_run (lokal t) l url w Hc).
  set (w1 := mkWorld _ _ _ _).
  destruct (create_cases daemon h t (mkLokal url (basicAuth l) (token l)) w1)
    as (o & w2 & Hcreate & Hsent & _).
  { exact Hlive. }
  { apply lookup_insert_eq. }
  { exact Haddr. }
  exists w1, o, w2. split; [reflexivity |]. split; [exact Hcreate |].
  split; [exact Hsent |].
  intros rq Hin Hnot. rewrite Hsent in Hin. apply in_app_iff in Hin.
  destruct Hin as [Hin | [<- | []]]; [contradiction | reflexivity].
Qed.

Lemma create_uses_current_client_witness :
  exists w1 o w2,
    setBaseURL 1%positive "http://10.0.0.2:6174" (world_with configured_tunnel)
    = (Return 1%positive, w1)
    /\ create unreachable 1%positive w1 = (o, w2)
    /\ sent w2
       = [build_request (mkLokal "http://10.0.0.2:6174" None None) TunnelStart "POST"
            (Some configured_tunnel)].
Proof.
  destruct (create_uses_current_client unreachable 1%positive configured_tunnel
              (mkLokal defaultBaseURL None None) (world_with configured_tunnel)
              "http://10.0.0.2:6174" eq_refl eq_refl eq_refl)
    as (w1 & o & w2 & H1 & H2 & H3 & _).
  exists w1, o, w2. split; [exact H1 |]. split; [exact H2 | exact H3].
Defined.

(** ** Reading addresses *)

(** X13.  Whenever [getLANAddress()] returns, what it returns is a
    string that ends with ".local": the stored address itself when it
    ends so, and the stored address with ".local" appended otherwise.
    It changes nothing, and on an address that is not a string it
    raises. *)
Theorem getLANAddress_suffix (h : loc) (t : Tunnel) (w : World) (v : JsVal)
    (w' : World) :
  tunnels w !! h = Some t ->
  getLANAddress h w = (Return v, w') ->
  w' = w
  /\ exists s r, address_mdns t = JStr s /\ s <> "" /\ v = JStr r
                 /\ (exists p, r = p ++ ".local")
                 /\ (r = s \/ (r = s ++ ".local" /\ forall p, s <> p ++ ".local")).
Proof.
  intros Hlive. unfold getLANAddress, bind.
  rewrite (get_tunnel_live h t w Hlive).
  destruct (address_mdns t) as [| | b | x | s | l | l] eqn:Hm; cbn [truthy];
    try discriminate;
    try (destruct (negb _); discriminate).
  destruct (String.eqb_spec s "") as [-> | Hne]; [discriminate |].
  cbn [negb]. unfold ret. intros [= <- <-]. split; [reflexivity |].
  exists s. destruct (endsWith ".local" s) eqn:E.
  - exists s. repeat split; auto. apply endsWith_iff, E.
  - exists (s ++ ".local"). repeat split; auto.
    + exists s. reflexivity.
    + right. split; [reflexivity |]. intros p Hp.
      rewrite (proj2 (endsWith_iff ".local" s)) in E by (exists p; exact Hp).
      discriminate E.
Qed.

Lemma getLANAddress_suffix_witness :
  exists s r,
    address_mdns (with_address_mdns (JStr "my-app") (blank_tunnel 1%positive)) = JStr s
    /\ r = "my-app.local" /\ exists p, r = p ++ ".local".
Proof.
  destruct (getLANAddress_suffix 1%positive
              (with_address_mdns (JStr "my-app") (blank_tunnel 1%positive))
              (world_with (with_address_mdns (JStr "my-app") (blank_tunnel 1%positive)))
              (JStr "my-app.local")
              (world_with (with_address_mdns (JStr "my-app") (blank_tunnel 1%positive)))
              eq_refl eq_refl) as (_ & s & r & Hs & _ & Hr & Hp & _).
  exists s, r. split; [exact Hs |]. injection Hr as <-. split; [reflexivity | exact Hp].
Defined.

(** X14.  [setLANAddress] on a truthy value that is not a string raises
    a TypeError and leaves the world as it was; on a falsy value of any
    kind it stores the empty string. *)
Theorem setLANAddress_argument (h : loc) (t : Tunnel) (w : World) (v : JsVal) :
  tunnels w !! h = Some t ->
  (truthy v = true -> (forall s, v <> JStr s) ->
   exists what, setLANAddress h v w = (Throw (TypeError what), w))
  /\ (truthy v = false ->
      setLANAddress h v w
      = (Return h,
         mkWorld (clients w) (<[h := with_address_mdns (JStr "") t]> (tunnels w))
                 (sent w) (console w))).
Proof.
  intros Hlive. unfold setLANAddress. split.
  - intros Ht Hns. rewrite Ht.
    destruct v; try discriminate Ht; try (eexists; reflexivity).
    exfalso. exact (Hns s eq_refl).
  - intros Hf. rewrite Hf. apply assign_then_return, Hlive.
Qed.

Lemma setLANAddress_argument_witness :
  exists what,
    setLANAddress 1%positive (JBool true) fresh_world
    = (Throw (TypeError what), fresh_world).
Proof.
  destruct (setLANAddress_argument 1%positive (blank_tunnel 1%positive) fresh_world
              (JBool true) eq_refl) as [H _].
  apply H; [reflexivity | discriminate].
Defined.

Section MoreAddresses.

Variable daemon : list Request -> Request -> FetchOutcome.

(** X15.  [getPublicAddress()] sends nothing and changes nothing when
    the handle's type is HTTP or its address has a ':': it returns the
    stored address.  Without a public address it fails, again without
    sending anything. *)
Theorem getPublicAddress_no_refresh (h : loc) (t : Tunnel) (w : World) :
  tunnels w !! h = Some t ->
  (truthy (address_public t) = false ->
   getPublicAddress daemon h w
   = (Throw (Error (JStr "Public address is not requested by client")), w))
  /\ (forall a, address_public t = JStr a -> a <> "" ->
        tunnel_type t = JStr "HTTP" \/ includes ":" a = true ->
        getPublicAddress daemon h w = (Return (JStr a), w)).
Proof.
  intros Hlive. unfold getPublicAddress. split.
  - intros Hf. unfold bind. rewrite (get_tunnel_live h t w Hlive), Hf. reflexivity.
  - intros a Ha Hne Hcase. unfold bind at 1.
    rewrite (get_tunnel_live h t w Hlive), Ha. cbn [truthy].
    destruct (String.eqb_spec a "") as [E | _]; [contradiction |]. cbn [negb].
    unfold bind, lift, ret. cbn [includes_colon].
    destruct Hcase as [Htype | Hcolon].
    + rewrite Htype. cbn [is_not_HTTP String.eqb Ascii.eqb Bool.eqb negb andb].
      rewrite (get_tunnel_live h t w Hlive), Ha. reflexivity.
    + rewrite Hcolon. destruct (is_not_HTTP (tunnel_type t)); cbn [negb];
        rewrite (get_tunnel_live h t w Hlive), Ha; reflexivity.
Qed.

(** X16.  Asking again works: after a [getPublicAddress()] that failed
    with the not-yet-assigned error because the refresh brought an
    address with a port, the next [getPublicAddress()] returns that
    address and sends nothing more. *)
Theorem getPublicAddress_retry (h : loc) (t : Tunnel) (l : Lokal) (a : string)
    (w : World) (ver : string) (st : N) (fields entry : list (string * JsVal))
    (rest : list JsVal) (p : string) :
  tunnels w !! h = Some t ->
  clients w !! lokal t = Some l ->
  address_public t = JStr a -> a <> "" -> includes ":" a = false ->
  is_not_HTTP (tunnel_type t) = true ->
  truthy (id t) = true ->
  ver <> "" -> isValidVersion ver = true ->
  ok (mkResponse st (Some ver) (Some (JObj fields))) = true ->
  daemon (sent w) (build_request l (TunnelInfo (id t)) "GET" None)
  = Responded (mkResponse st (Some ver) (Some (JObj fields))) ->
  truthy (assoc "success" fields) = true ->
  assoc "data" fields = JArr (JObj entry :: rest) ->
  assoc "address_public" entry = JStr p ->
  includes ":" p = true ->
  exists w',
    getPublicAddress daemon h w = (Throw not_yet_assigned, w')
    /\ getPublicAddress daemon h w' = (Return (JStr p), w')
    /\ sent w' = (sent w ++ [build_request l (TunnelInfo (id t)) "GET" None])%list.
Proof.
  intros Hlive Hc Ha Hne Hcolon Htype Hid Hver Hvalid Hok Hd Hsuccess Hdata Hp Hport.
  rewrite (getPublicAddress_pending_run daemon h t a w Hlive Ha Hne Hcolon Htype).
  unfold bind at 1.
  rewrite (refresh_run daemon h t l w ver st fields Hlive Hc Hid Hver Hvalid Hok Hd).
  set (rq := build_request l (TunnelInfo (id t)) "GET" None).
  destruct (array_length_nonzero (JObj entry) rest) as (len & Hlen & Hz).
  unfold no_result, bind, lift, ret, throw.
  rewrite !get_object, Hsuccess, Hdata, Hlen, Hz. cbn [negb get_first].
  rewrite !get_object, Hp. cbn [includes_colon]. rewrite Hport. cbn [negb].
  rewrite (assign_live h t _ (after_fetch rq w) Hlive).
  eexists. split; [reflexivity |].
  split; [| reflexivity].
  set (t' := with_address_public (JStr p) t).
  set (w' := mkWorld _ _ _ _).
  assert (Hlive' : tunnels w' !! h = Some t') by apply lookup_insert_eq.
  assert (Hp0 : p <> "") by (intros ->; discriminate Hport).
  unfold getPublicAddress. unfold bind at 1.
  rewrite (get_tunnel_live h t' w' Hlive').
  change (address_public t') with (JStr p). cbn [truthy].
  destruct (String.eqb_spec p "") as [E | _]; [contradiction |]. cbn [negb].
  unfold bind, lift, ret. cbn [includes_colon]. rewrite Hport.
  destruct (is_not_HTTP (tunnel_type t')); cbn [negb];
    rewrite (get_tunnel_live h t' w' Hlive'); reflexivity.
Qed.

End MoreAddresses.

Lemma getPublicAddress_no_refresh_witness :
  getPublicAddress unreachable 1%positive (world_with configured_tunnel)
  = (Return (JStr "my-app"), world_with configured_tunnel).
Proof.
  destruct (getPublicAddress_no_refresh unreachable 1%positive configured_tunnel
              (world_with configured_tunnel) eq_refl) as [_ H].
  apply (H "my-app" eq_refl); [discriminate | left; reflexivity].
Defined.

Lemma getPublicAddress_retry_witness :
  exists w',
    getPublicAddress (answering (Some "0.6.0") (info_body "1.2.3.4:5000")) 1%positive
      (world_with (pending_tunnel (JStr "abc"))) = (Throw not_yet_assigned, w')
    /\ getPublicAddress (answering (Some "0.6.0") (info_body "1.2.3.4:5000")) 1%positive
         w' = (Return (JStr "1.2.3.4:5000"), w').
Proof.
  destruct (getPublicAddress_retry
              (answering (Some "0.6.0") (info_body "1.2.3.4:5000")) 1%positive
              (pending_tunnel (JStr "abc")) (mkLokal defaultBaseURL None None)
              "1.2.3.4" (world_with (pending_tunnel (JStr "abc"))) "0.6.0" 200%N
              [("success", JBool true);
               ("data", JArr [JObj [("id", JStr "abc");
                                    ("address_public", JStr "1.2.3.4:5000")]])]
              [("id", JStr "abc"); ("address_public", JStr "1.2.3.4:5000")] []
              "1.2.3.4:5000"
              eq_refl eq_refl eq_refl ltac:(discriminate) eq_refl eq_refl eq_refl
              ltac:(discriminate) eq_refl eq_refl eq_refl eq_refl eq_refl eq_refl
              eq_refl) as (w' & H1 & H2 & _).
  exists w'. split; [exact H1 | exact H2].
Defined.

(** ** Setting the same field twice *)

Lemma update_of_overwrite s s' t :
  target s' = target s ->
  update_of s' (update_of s t) = update_of s' t.
Proof.
  destruct s as [v | v | v | v | v | v | |], s' as [u | u | u | u | u | u | |];
    try discriminate; intros _; try destruct v; try destruct u; reflexivity.
Qed.

(** X17.  The last call wins: two calls of the same setter, one after
    the other, leave the world the second call alone would leave.  So
    [ignoreDuplicate()] and [showStartupBanner()] called twice do what
    they do called once. *)
Theorem setter_last_call_wins (s s' : Setter) (h : loc) (t : Tunnel) (w : World) :
  tunnels w !! h = Some t ->
  accepted s = true -> accepted s' = true ->
  target s' = target s ->
  (call s h ;;; call s' h) w = call s' h w.
Proof.
  intros Hlive Hacc Hacc' Htarget. unfold bind.
  rewrite (call_accepted s h t w Hlive Hacc).
  rewrite (call_accepted s' h (update_of s t)) by (apply lookup_insert_eq || exact Hacc').
  rewrite (call_accepted s' h t w Hlive Hacc').
  cbn [clients tunnels sent console].
  rewrite insert_insert_eq, (update_of_overwrite s s' t Htarget). reflexivity.
Qed.

Lemma setter_last_call_wins_witness :
  (call (SetName (JStr "one")) 1%positive ;;; call (SetName (JStr "two")) 1%positive)
    fresh_world
  = call (SetName (JStr "two")) 1%positive fresh_world.
Proof.
  apply (setter_last_call_wins (SetName (JStr "one")) (SetName (JStr "two")) 1%positive
           (blank_tunnel 1%positive) fresh_world); reflexivity.
Defined.
